(** * Apple Health export converter: a shallow embedding of [convert.py]

    The development follows the layout of the script:
    - [PyStr]: the string operations of Python that the script relies on
      ([startswith], slicing, [in], [str.replace], [str.lower],
      [str.lstrip], and the leftmost non-overlapping scan of [re.sub]);
    - [Normalizers]: [friendly_name], [clean_date], [clean_workout_type],
      [clean_bio_sex], [clean_blood_type], [clean_skin_type];
    - [Classifier]: the loop over the [(event, elem)] pairs produced by
      [ET.iterparse], as a step function on the loop's local variables;
    - [Writer]: the CSV files written after the loop, as a list of
      (path, field names, rows).

    Characters.  A Python [str] is a sequence of Unicode code points.  The
    embedding uses [string], whose characters are the code points below 256;
    on that range the classes [\s], [\d], [[A-Z]], [[a-z]] and [str.lower]
    are written out as CPython defines them for [str] patterns. *)

From Stdlib Require Import Bool Arith Lia List Ascii String.
Import ListNotations.
Open Scope string_scope.

(* ------------------------------------------------------------------ *)
(** ** Python string primitives *)

Module PyStr.

(** Code point of a character. *)
Definition ord (c : ascii) : nat := nat_of_ascii c.

Definition between (lo hi : nat) (c : ascii) : bool :=
  Nat.leb lo (ord c) && Nat.leb (ord c) hi.

(** [[A-Z]] *)
Definition is_upper_AZ (c : ascii) : bool := between 65 90 c.

(** [[a-z]] *)
Definition is_lower_az (c : ascii) : bool := between 97 122 c.

(** [\d] on code points below 256: only the ASCII digits are decimal. *)
Definition is_digit (c : ascii) : bool := between 48 57 c.

(** [\s] on code points below 256: TAB..CR, FS..US, space, NEL, NBSP. *)
Definition is_space (c : ascii) : bool :=
  between 9 13 c || between 28 32 c || Nat.eqb (ord c) 133 || Nat.eqb (ord c) 160.

(** [[+-]] *)
Definition is_sign (c : ascii) : bool := Nat.eqb (ord c) 43 || Nat.eqb (ord c) 45.

Definition underscore : ascii := "_"%char.
Definition newline : ascii := ascii_of_nat 10.

Definition is_underscore (c : ascii) : bool := Ascii.eqb c underscore.

(** [str.lower] on one code point below 256: A-Z, and the Latin-1 capitals
    U+00C0..U+00DE except the multiplication sign U+00D7. *)
Definition lower_char (c : ascii) : ascii :=
  if between 65 90 c || between 192 214 c || between 216 222 c
  then ascii_of_nat (ord c + 32)
  else c.

Fixpoint lower (s : string) : string :=
  match s with
  | EmptyString => EmptyString
  | String c r => String (lower_char c) (lower r)
  end.

(** [s[n:]] *)
Fixpoint slice_from (n : nat) (s : string) : string :=
  match n, s with
  | O, _ => s
  | S _, EmptyString => EmptyString
  | S k, String _ r => slice_from k r
  end.

(** [s[:n]] *)
Fixpoint slice_to (n : nat) (s : string) : string :=
  match n, s with
  | O, _ => EmptyString
  | S _, EmptyString => EmptyString
  | S k, String c r => String c (slice_to k r)
  end.

(** [s.startswith(p)] *)
Definition startswith (s p : string) : bool := String.prefix p s.

(** [p in s] for strings: [p] occurs at some position of [s]. *)
Fixpoint contains (p s : string) : bool :=
  startswith s p ||
  match s with
  | EmptyString => false
  | String _ r => contains p r
  end.

(** [s.lstrip("_")] *)
Fixpoint lstrip_underscore (s : string) : string :=
  match s with
  | EmptyString => EmptyString
  | String c r => if is_underscore c then lstrip_underscore r else s
  end.

(** Truth value of a string: [if s] holds for the non-empty ones. *)
Definition truthy (s : string) : bool :=
  match s with EmptyString => false | String _ _ => true end.

(** Number of leading characters of [s] in the class [cls]. *)
Fixpoint run_length (cls : ascii -> bool) (s : string) : nat :=
  match s with
  | EmptyString => 0
  | String c r => if cls c then S (run_length cls r) else 0
  end.

(** *** The scan of [re.sub] and [str.replace]

    Both walk the text from left to right.  At the current position the
    pattern is tried; on a match the replacement is emitted and the scan
    resumes after the matched text, otherwise the character is copied and the
    scan moves one position to the right.  A pattern is given by [match_at],
    which returns the length of its match at the head of the remaining text;
    none of the script's patterns looks behind the current position or
    matches the empty string.  [skip] counts the characters of the current
    match that are still to be passed over. *)

Section Scan.
Variable match_at : string -> option nat.
Variable repl : string -> string.

Fixpoint scan_from (skip : nat) (s : string) : string :=
  match s with
  | EmptyString => EmptyString
  | String c r =>
      match skip with
      | S k => scan_from k r
      | O =>
          match match_at s with
          | Some (S n) => repl (slice_to (S n) s) ++ scan_from n r
          | _ => String c (scan_from 0 r)
          end
      end
  end.

Definition re_sub (s : string) : string := scan_from 0 s.
End Scan.

(** [s.replace(old, "")] for a non-empty [old]. *)
Definition match_literal (old s : string) : option nat :=
  if startswith s old then Some (String.length old) else None.

Definition replace_with_empty (old s : string) : string :=
  re_sub (match_literal old) (fun _ => EmptyString) s.

(** Pattern [([A-Z])], replacement [_\1]. *)
Definition match_upper (s : string) : option nat :=
  match s with
  | String c _ => if is_upper_AZ c then Some 1 else None
  | EmptyString => None
  end.

Definition repl_underscore_group (m : string) : string := String underscore m.

(** Pattern [_+], replacement [_]. The quantifier is greedy and nothing
    follows it, so the match is the whole run. *)
Definition match_underscores (s : string) : option nat :=
  match run_length is_underscore s with
  | O => None
  | n => Some n
  end.

Definition repl_one_underscore (_ : string) : string := String underscore EmptyString.

(** Pattern [([a-z])([A-Z])], replacement [\1 \2]. *)
Definition match_lower_upper (s : string) : option nat :=
  match s with
  | String a (String b _) => if is_lower_az a && is_upper_AZ b then Some 2 else None
  | _ => None
  end.

Definition repl_space_between (m : string) : string :=
  match m with
  | String a r => String a (String " "%char r)
  | EmptyString => EmptyString
  end.

(** [$] without MULTILINE: at the end of the text, or just before a newline
    that is its last character. *)
Definition at_dollar (s : string) : bool :=
  match s with
  | EmptyString => true
  | String c EmptyString => Ascii.eqb c newline
  | _ => false
  end.

(** Pattern [\s+[+-]\d{4}$].  [\s+] takes the whole run of whitespace: giving
    a character back would put a whitespace character where [[+-]] is
    required. *)
Definition match_tz (s : string) : option nat :=
  let k := run_length is_space s in
  match k, slice_from k s with
  | S _, String sg (String d1 (String d2 (String d3 (String d4 tl)))) =>
      if is_sign sg && is_digit d1 && is_digit d2 && is_digit d3 && is_digit d4
         && at_dollar tl
      then Some (k + 5) else None
  | _, _ => None
  end.

Definition repl_empty (_ : string) : string := EmptyString.

End PyStr.

(* ------------------------------------------------------------------ *)
(** ** Identifier and date normalizers *)

Module Normalizers.
Import PyStr.

(** A [dict] with string keys, in insertion order. *)
Fixpoint dict_get {V : Type} (k : string) (d : list (string * V)) : option V :=
  match d with
  | [] => None
  | (k', v) :: d' => if String.eqb k' k then Some v else dict_get k d'
  end.

Definition TYPE_NAMES : list (string * string) :=
  [ ("HKQuantityTypeIdentifierHeartRate", "heart_rate");
    ("HKQuantityTypeIdentifierStepCount", "steps");
    ("HKQuantityTypeIdentifierBloodGlucose", "blood_glucose");
    ("HKQuantityTypeIdentifierActiveEnergyBurned", "active_energy");
    ("HKQuantityTypeIdentifierBasalEnergyBurned", "basal_energy");
    ("HKQuantityTypeIdentifierDistanceWalkingRunning", "distance_walking_running");
    ("HKQuantityTypeIdentifierDistanceCycling", "distance_cycling");
    ("HKQuantityTypeIdentifierOxygenSaturation", "oxygen_saturation");
    ("HKQuantityTypeIdentifierBloodPressureSystolic", "blood_pressure_systolic");
    ("HKQuantityTypeIdentifierBloodPressureDiastolic", "blood_pressure_diastolic");
    ("HKQuantityTypeIdentifierFlightsClimbed", "flights_climbed");
    ("HKQuantityTypeIdentifierHeartRateVariabilitySDNN", "heart_rate_variability");
    ("HKQuantityTypeIdentifierRestingHeartRate", "resting_heart_rate");
    ("HKQuantityTypeIdentifierWalkingHeartRateAverage", "walking_heart_rate_avg");
    ("HKQuantityTypeIdentifierVO2Max", "vo2_max");
    ("HKQuantityTypeIdentifierRespiratoryRate", "respiratory_rate");
    ("HKQuantityTypeIdentifierBodyMass", "body_mass");
    ("HKQuantityTypeIdentifierHeight", "height");
    ("HKQuantityTypeIdentifierPhysicalEffort", "physical_effort");
    ("HKQuantityTypeIdentifierEnvironmentalAudioExposure", "environmental_audio");
    ("HKQuantityTypeIdentifierWalkingSpeed", "walking_speed");
    ("HKQuantityTypeIdentifierWalkingStepLength", "walking_step_length");
    ("HKQuantityTypeIdentifierWalkingDoubleSupportPercentage", "walking_double_support");
    ("HKQuantityTypeIdentifierWalkingAsymmetryPercentage", "walking_asymmetry");
    ("HKQuantityTypeIdentifierAppleWalkingSteadiness", "walking_steadiness");
    ("HKQuantityTypeIdentifierAppleStandTime", "stand_time");
    ("HKQuantityTypeIdentifierAppleExerciseTime", "exercise_time");
    ("HKQuantityTypeIdentifierStairAscentSpeed", "stair_ascent_speed");
    ("HKQuantityTypeIdentifierStairDescentSpeed", "stair_descent_speed");
    ("HKQuantityTypeIdentifierTimeInDaylight", "time_in_daylight");
    ("HKQuantityTypeIdentifierSixMinuteWalkTestDistance", "six_minute_walk_distance");
    ("HKQuantityTypeIdentifierHeadphoneAudioExposure", "headphone_audio");
    ("HKCategoryTypeIdentifierSleepAnalysis", "sleep_analysis");
    ("HKCategoryTypeIdentifierAppleStandHour", "stand_hours");
    ("HKCategoryTypeIdentifierAudioExposureEvent", "audio_exposure_events");
    ("HKDataTypeSleepDurationGoal", "sleep_duration_goal") ].

(** A [set] of strings, used only through [in]. *)
Definition BP_TYPES : list string :=
  [ "HKQuantityTypeIdentifierBloodPressureSystolic";
    "HKQuantityTypeIdentifierBloodPressureDiastolic" ].

Definition set_mem (x : string) (s : list string) : bool :=
  existsb (String.eqb x) s.

Definition WORKOUT_ACTIVITY_PREFIX : string := "HKWorkoutActivityType".

Definition KNOWN_PREFIXES : list string :=
  [ "HKQuantityTypeIdentifier"; "HKCategoryTypeIdentifier"; "HKDataType" ].

(** The [for prefix in (...)] loop with its [break]. *)
Fixpoint strip_first_prefix (prefixes : list string) (name : string) : string :=
  match prefixes with
  | [] => name
  | prefix :: rest =>
      if startswith name prefix
      then slice_from (String.length prefix) name
      else strip_first_prefix rest name
  end.

(** The path taken by [friendly_name] when the identifier is not a key of
    [TYPE_NAMES]. *)
Definition snake_case (hk_type : string) : string :=
  let name := strip_first_prefix KNOWN_PREFIXES hk_type in
  let name :=
    lstrip_underscore (lower (re_sub match_upper repl_underscore_group name)) in
  re_sub match_underscores repl_one_underscore name.

Definition friendly_name (hk_type : string) : string :=
  match dict_get hk_type TYPE_NAMES with
  | Some name => name
  | None => snake_case hk_type
  end.

(** [k in d] *)
Definition dict_contains {V : Type} (k : string) (d : list (string * V)) : bool :=
  existsb (fun kv => String.eqb (fst kv) k) d.

(** The outcome of a call of [friendly_name], with the subscript
    [TYPE_NAMES[hk_type]] kept partial: [None] stands for the [KeyError] it
    raises on a missing key.  No other operation of the normalizers can
    raise on a string. *)
Definition friendly_name_outcome (hk_type : string) : option string :=
  if dict_contains hk_type TYPE_NAMES
  then dict_get hk_type TYPE_NAMES
  else Some (snake_case hk_type).

Definition clean_date (date_str : string) : string :=
  if truthy date_str
  then re_sub match_tz repl_empty date_str
  else "".

Definition clean_workout_type (activity_type : string) : string :=
  if startswith activity_type WORKOUT_ACTIVITY_PREFIX
  then slice_from (String.length WORKOUT_ACTIVITY_PREFIX) activity_type
  else activity_type.

Definition clean_bio_sex (val : string) : string :=
  if truthy val then replace_with_empty "HKBiologicalSex" val else "".

Definition clean_blood_type (val : string) : string :=
  let name := if truthy val then replace_with_empty "HKBloodType" val else "" in
  re_sub match_lower_upper repl_space_between name.

Definition clean_skin_type (val : string) : string :=
  let name :=
    if truthy val then replace_with_empty "HKFitzpatrickSkinType" val else "" in
  re_sub match_lower_upper repl_space_between name.

End Normalizers.

(* ------------------------------------------------------------------ *)
(** ** The streaming classifier: the [for event, elem in ET.iterparse(...)] loop *)

Module Classifier.
Import PyStr Normalizers.
Local Open Scope list_scope.

(** [ET.iterparse(..., events=("start", "end"))] yields these two kinds. *)
Inductive event_kind : Type := EvStart | EvEnd.

(** What the loop reads of an element: its tag and its attributes. *)
Record element : Type := mkElement {
  tag : string;
  attrib : list (string * string)
}.

Definition event : Type := (event_kind * element)%type.

(** [elem.get(key, "")] *)
Definition elem_get (elem : element) (key : string) : string :=
  match dict_get key (attrib elem) with
  | Some v => v
  | None => ""
  end.

(** The dict [row] built for a [Record] element. *)
Record row : Type := mkRow {
  source : string;
  value : string;
  unit : string;
  start_date : string;
  end_date : string;
  creation_date : string
}.

(** [{"type": rec_type, **row}] *)
Record child : Type := mkChild {
  rec_type : string;
  rec_row : row
}.

(** The dict bound to [current_correlation]. *)
Record correlation : Type := mkCorrelation {
  corr_type : string;
  sourceName : string;
  creationDate : string;
  startDate : string;
  endDate : string;
  corr_records : list child
}.

Record workout : Type := mkWorkout {
  w_activity_type : string;
  w_duration : string;
  w_duration_unit : string;
  w_total_distance : string;
  w_distance_unit : string;
  w_total_energy_burned : string;
  w_energy_unit : string;
  w_source : string;
  w_start_date : string;
  w_end_date : string
}.

Record summary : Type := mkSummary {
  s_date : string;
  s_active_energy_burned : string;
  s_active_energy_burned_goal : string;
  s_exercise_time : string;
  s_exercise_time_goal : string;
  s_stand_hours : string;
  s_stand_hours_goal : string
}.

Record profile_row : Type := mkProfile {
  date_of_birth : string;
  biological_sex : string;
  blood_type : string;
  skin_type : string
}.

(** The local variables of [parse_and_convert] that the loop updates.
    [records] is the [defaultdict(list)], kept in insertion order. *)
Record state : Type := mkState {
  records : list (string * list row);
  workouts : list workout;
  activity_summaries : list summary;
  correlations : list correlation;
  profile : option profile_row;
  in_correlation : bool;
  current_correlation : option correlation
}.

Definition init : state :=
  mkState [] [] [] [] None false None.

(** [records[name].append(row)] on a [defaultdict(list)]: a missing key is
    created with an empty list first. *)
Fixpoint bucket_append (name : string) (r : row) (d : list (string * list row))
  : list (string * list row) :=
  match d with
  | [] => [(name, [r])]
  | (k, rs) :: d' =>
      if String.eqb k name then (k, rs ++ [r]) :: d'
      else (k, rs) :: bucket_append name r d'
  end.

Definition set_records (st : state) (x : list (string * list row)) : state :=
  mkState x (workouts st) (activity_summaries st) (correlations st)
          (profile st) (in_correlation st) (current_correlation st).

Definition set_workouts (st : state) (x : list workout) : state :=
  mkState (records st) x (activity_summaries st) (correlations st)
          (profile st) (in_correlation st) (current_correlation st).

Definition set_activity_summaries (st : state) (x : list summary) : state :=
  mkState (records st) (workouts st) x (correlations st)
          (profile st) (in_correlation st) (current_correlation st).

Definition set_correlations (st : state) (x : list correlation) : state :=
  mkState (records st) (workouts st) (activity_summaries st) x
          (profile st) (in_correlation st) (current_correlation st).

Definition set_profile (st : state) (x : option profile_row) : state :=
  mkState (records st) (workouts st) (activity_summaries st) (correlations st)
          x (in_correlation st) (current_correlation st).

Definition set_in_correlation (st : state) (x : bool) : state :=
  mkState (records st) (workouts st) (activity_summaries st) (correlations st)
          (profile st) x (current_correlation st).

Definition set_current_correlation (st : state) (x : option correlation) : state :=
  mkState (records st) (workouts st) (activity_summaries st) (correlations st)
          (profile st) (in_correlation st) x.

(** [current_correlation["records"].append(c)] *)
Definition add_child (corr : correlation) (c : child) : correlation :=
  mkCorrelation (corr_type corr) (sourceName corr) (creationDate corr)
                (startDate corr) (endDate corr) (corr_records corr ++ [c]).

Definition new_correlation (elem : element) : correlation :=
  mkCorrelation (elem_get elem "type") (elem_get elem "sourceName")
                (elem_get elem "creationDate") (elem_get elem "startDate")
                (elem_get elem "endDate") [].

Definition make_profile (elem : element) : profile_row :=
  mkProfile
    (elem_get elem "HKCharacteristicTypeIdentifierDateOfBirth")
    (clean_bio_sex (elem_get elem "HKCharacteristicTypeIdentifierBiologicalSex"))
    (clean_blood_type (elem_get elem "HKCharacteristicTypeIdentifierBloodType"))
    (clean_skin_type
       (elem_get elem "HKCharacteristicTypeIdentifierFitzpatrickSkinType")).

Definition make_row (elem : element) : row :=
  mkRow (elem_get elem "sourceName") (elem_get elem "value")
        (elem_get elem "unit")
        (clean_date (elem_get elem "startDate"))
        (clean_date (elem_get elem "endDate"))
        (clean_date (elem_get elem "creationDate")).

Definition make_workout (elem : element) : workout :=
  mkWorkout
    (clean_workout_type (elem_get elem "workoutActivityType"))
    (elem_get elem "duration") (elem_get elem "durationUnit")
    (elem_get elem "totalDistance") (elem_get elem "totalDistanceUnit")
    (elem_get elem "totalEnergyBurned") (elem_get elem "totalEnergyBurnedUnit")
    (elem_get elem "sourceName")
    (clean_date (elem_get elem "startDate"))
    (clean_date (elem_get elem "endDate")).

Definition make_summary (elem : element) : summary :=
  mkSummary
    (elem_get elem "dateComponents")
    (elem_get elem "activeEnergyBurned") (elem_get elem "activeEnergyBurnedGoal")
    (elem_get elem "appleExerciseTime") (elem_get elem "appleExerciseTimeGoal")
    (elem_get elem "appleStandHours") (elem_get elem "appleStandHoursGoal").

(** The branch [elif tag == "Record"]. *)
Definition end_record (st : state) (elem : element) : state :=
  let rec_type := elem_get elem "type" in
  let r := make_row elem in
  match in_correlation st, current_correlation st with
  | true, Some corr =>
      set_current_correlation st (Some (add_child corr (mkChild rec_type r)))
  | _, _ =>
      if negb (set_mem rec_type BP_TYPES)
      then set_records st (bucket_append (friendly_name rec_type) r (records st))
      else st
  end.

(** The branch [elif tag == "Correlation"] of the "end" events. *)
Definition end_correlation (st : state) : state :=
  let st :=
    match current_correlation st with
    | Some corr => set_correlations st (correlations st ++ [corr])
    | None => st
    end in
  set_current_correlation (set_in_correlation st false) None.

(** One iteration of the loop body. [elem.clear()] does not touch the
    variables of the state: everything kept was copied out of [elem]. *)
Definition step (st : state) (ev : event) : state :=
  let '(kind, elem) := ev in
  match kind with
  | EvStart =>
      if String.eqb (tag elem) "Correlation"
      then set_current_correlation (set_in_correlation st true)
                                   (Some (new_correlation elem))
      else st
  | EvEnd =>
      if String.eqb (tag elem) "Me" then
        set_profile st (Some (make_profile elem))
      else if String.eqb (tag elem) "Record" then
        end_record st elem
      else if String.eqb (tag elem) "Correlation" then
        end_correlation st
      else if String.eqb (tag elem) "Workout" then
        set_workouts st (workouts st ++ [make_workout elem])
      else if String.eqb (tag elem) "ActivitySummary" then
        set_activity_summaries st (activity_summaries st ++ [make_summary elem])
      else st
  end.

(** The whole loop, from a given state. *)
Definition run_from (st : state) (evs : list event) : state :=
  fold_left step evs st.

Definition run (evs : list event) : state := run_from init evs.

End Classifier.

(* ------------------------------------------------------------------ *)
(** ** The table writer: the files written after the loop *)

Module Writer.
Import PyStr Normalizers Classifier.
Local Open Scope list_scope.

(** One [open(path, "w")] with the header and the rows handed to the
    [csv.DictWriter]; [path] is relative to [output_dir]. *)
Record csv_file : Type := mkFile {
  path : string;
  fieldnames : list string;
  data : list (list string)
}.

(** [sorted(records)]: the keys in increasing order of code points. *)
Fixpoint insert_sorted (k : string) (ks : list string) : list string :=
  match ks with
  | [] => [k]
  | k' :: ks' =>
      if String.leb k k' then k :: ks else k' :: insert_sorted k ks'
  end.

Definition sorted (ks : list string) : list string :=
  fold_right insert_sorted [] ks.

Definition dict_keys {V : Type} (d : list (string * V)) : list string :=
  map fst d.

(** [records[name]] for a key of the dict. *)
Definition bucket (d : list (string * list row)) (name : string) : list row :=
  match dict_get name d with
  | Some rs => rs
  | None => []
  end.

Definition record_fields : list string :=
  ["source"; "value"; "unit"; "start_date"; "end_date"; "creation_date"].

Definition row_cells (r : row) : list string :=
  [source r; value r; unit r; start_date r; end_date r; creation_date r].

Definition record_files (st : state) : list csv_file :=
  map (fun name =>
         mkFile (name ++ ".csv")%string record_fields
                (map row_cells (bucket (records st) name)))
      (sorted (dict_keys (records st))).

(** The dict appended to [bp_rows]. *)
Record bp_row : Type := mkBpRow {
  bp_systolic : string;
  bp_diastolic : string;
  bp_unit : string;
  bp_source : string;
  bp_start_date : string;
  bp_end_date : string
}.

(** One iteration of [for rec in corr["records"]] on the three local
    variables [(systolic, diastolic, unit)]. *)
Definition scan_child (acc : string * string * string) (rec : child)
  : string * string * string :=
  let '(systolic, diastolic, u) := acc in
  if contains "Systolic" (rec_type rec)
  then (value (rec_row rec), diastolic, unit (rec_row rec))
  else if contains "Diastolic" (rec_type rec)
  then (systolic, value (rec_row rec), u)
  else acc.

Definition make_bp_row (corr : correlation) : bp_row :=
  let '(systolic, diastolic, u) :=
    fold_left scan_child (corr_records corr) ("", "", "") in
  mkBpRow systolic diastolic u (sourceName corr)
          (clean_date (startDate corr)) (clean_date (endDate corr)).

Definition bp_rows (st : state) : list bp_row :=
  map make_bp_row (correlations st).

Definition bp_fields : list string :=
  ["systolic"; "diastolic"; "unit"; "source"; "start_date"; "end_date"].

Definition bp_cells (r : bp_row) : list string :=
  [bp_systolic r; bp_diastolic r; bp_unit r; bp_source r;
   bp_start_date r; bp_end_date r].

(** [if correlations:] *)
Definition blood_pressure_files (st : state) : list csv_file :=
  match correlations st with
  | [] => []
  | _ :: _ => [mkFile "blood_pressure.csv" bp_fields (map bp_cells (bp_rows st))]
  end.

Definition workout_fields : list string :=
  ["activity_type"; "duration"; "duration_unit"; "total_distance";
   "distance_unit"; "total_energy_burned"; "energy_unit"; "source";
   "start_date"; "end_date"].

Definition workout_cells (w : workout) : list string :=
  [w_activity_type w; w_duration w; w_duration_unit w; w_total_distance w;
   w_distance_unit w; w_total_energy_burned w; w_energy_unit w; w_source w;
   w_start_date w; w_end_date w].

(** [if workouts:] *)
Definition workout_files (st : state) : list csv_file :=
  match workouts st with
  | [] => []
  | _ :: _ => [mkFile "workouts.csv" workout_fields (map workout_cells (workouts st))]
  end.

Definition summary_fields : list string :=
  ["date"; "active_energy_burned"; "active_energy_burned_goal";
   "exercise_time"; "exercise_time_goal"; "stand_hours"; "stand_hours_goal"].

Definition summary_cells (a : summary) : list string :=
  [s_date a; s_active_energy_burned a; s_active_energy_burned_goal a;
   s_exercise_time a; s_exercise_time_goal a; s_stand_hours a;
   s_stand_hours_goal a].

(** [if activity_summaries:] *)
Definition summary_files (st : state) : list csv_file :=
  match activity_summaries st with
  | [] => []
  | _ :: _ =>
      [mkFile "activity_summary.csv" summary_fields
              (map summary_cells (activity_summaries st))]
  end.

Definition profile_fields : list string :=
  ["date_of_birth"; "biological_sex"; "blood_type"; "skin_type"].

Definition profile_cells (p : profile_row) : list string :=
  [date_of_birth p; biological_sex p; blood_type p; skin_type p].

(** [if profile:] -- the dict has four keys whenever it is not [None]. *)
Definition profile_files (st : state) : list csv_file :=
  match profile st with
  | None => []
  | Some p => [mkFile "profile.csv" profile_fields [profile_cells p]]
  end.

(** All files, in the order in which they are opened. *)
Definition write_files (st : state) : list csv_file :=
  record_files st ++ blood_pressure_files st ++ workout_files st
  ++ summary_files st ++ profile_files st.

Definition convert (evs : list event) : list csv_file :=
  write_files (run evs).

End Writer.

(* ------------------------------------------------------------------ *)
(** ** The specification's wording, as definitions of its own

    These definitions follow the sentences of the specification and are
    compared below with the functions of the script. *)

Module Spec.
Import PyStr Normalizers Classifier Writer.

(** "strip one of a fixed set of known prefixes (first match wins)" *)
Definition strip_known_prefix (s : string) : string :=
  match find (fun p => startswith s p) KNOWN_PREFIXES with
  | Some p => slice_from (String.length p) s
  | None => s
  end.

(** "inserting an underscore before each uppercase letter" *)
Fixpoint underscore_before_upper (s : string) : string :=
  match s with
  | EmptyString => EmptyString
  | String c r =>
      if is_upper_AZ c
      then String underscore (String c (underscore_before_upper r))
      else String c (underscore_before_upper r)
  end.

(** "collapse repeated underscores": every run of underscores becomes one. *)
Fixpoint collapse_underscores (s : string) : string :=
  match s with
  | EmptyString => EmptyString
  | String c r =>
      if is_underscore c then
        match r with
        | String c' _ =>
            if is_underscore c' then collapse_underscores r
            else String c (collapse_underscores r)
        | EmptyString => String c EmptyString
        end
      else String c (collapse_underscores r)
  end.

(** "trim leading underscore" *)
Definition trim_leading_underscore (s : string) : string :=
  match s with
  | String c r => if is_underscore c then r else s
  | EmptyString => EmptyString
  end.

(** The fallback rule, in the order in which the specification lists it. *)
Definition generic_name (s : string) : string :=
  trim_leading_underscore
    (collapse_underscores
       (lower (underscore_before_upper (strip_known_prefix s)))).

(** "insert a space between a lowercase letter followed by an uppercase
    letter" *)
Fixpoint space_words (s : string) : string :=
  match s with
  | EmptyString => EmptyString
  | String a r =>
      match r with
      | String b _ =>
          if is_lower_az a && is_upper_AZ b
          then String a (String " "%char (space_words r))
          else String a (space_words r)
      | EmptyString => String a EmptyString
      end
  end.

(** Every character of [s] is in the class [cls]. *)
Fixpoint all_in (cls : ascii -> bool) (s : string) : bool :=
  match s with
  | EmptyString => true
  | String c r => cls c && all_in cls r
  end.

(** The last character of [s] is in the class [cls]. *)
Fixpoint ends_in (cls : ascii -> bool) (s : string) : bool :=
  match s with
  | EmptyString => false
  | String c EmptyString => cls c
  | String _ r => ends_in cls r
  end.

(** A signed four-digit offset. *)
Definition is_offset (o : string) : bool :=
  match o with
  | String sg (String d1 (String d2 (String d3 (String d4 EmptyString)))) =>
      is_sign sg && is_digit d1 && is_digit d2 && is_digit d3 && is_digit d4
  | _ => false
  end.

(** Where the offset may stand: at the very end, or before one final
    newline. *)
Definition is_tail (tl : string) : bool :=
  String.eqb tl EmptyString || String.eqb tl (String newline EmptyString).

(** [s] carries a timezone-offset suffix: some whitespace, then the offset,
    at the end of [s]. *)
Definition has_tz_suffix (s : string) : Prop :=
  exists p w o tl,
    s = p ++ w ++ o ++ tl /\
    truthy w = true /\ all_in is_space w = true /\
    is_offset o = true /\ is_tail tl = true.

(** The children a row component is taken from. *)
Definition is_systolic (c : child) : bool :=
  contains "Systolic" (rec_type c).

Definition is_diastolic (c : child) : bool :=
  contains "Diastolic" (rec_type c).

Definition is_diastolic_only (c : child) : bool :=
  is_diastolic c && negb (is_systolic c).

(** The last element of [l] that satisfies [f]. *)
Fixpoint last_such {A : Type} (f : A -> bool) (l : list A) : option A :=
  match l with
  | [] => None
  | x :: l' =>
      match last_such f l' with
      | Some y => Some y
      | None => if f x then Some x else None
      end
  end.

(** The "end" event of an element with the tag [t]. *)
Definition is_end_of (t : string) (ev : event) : bool :=
  match fst ev with
  | EvEnd => String.eqb (tag (snd ev)) t
  | EvStart => false
  end.

(** The elements whose "end" event carries the tag [t], in document order. *)
Definition ended (t : string) (evs : list event) : list element :=
  map snd (filter (is_end_of t) evs).

(** The classifier's invariant: the flag is set exactly when a correlation
    is held. *)
Definition flag_matches_reference (st : state) : Prop :=
  in_correlation st = true <-> current_correlation st <> None.

(** An event that opens or closes a [Correlation] element. *)
Definition is_correlation_event (ev : event) : bool :=
  String.eqb (tag (snd ev)) "Correlation".




End Spec.

(* ------------------------------------------------------------------ *)
(** ** Inputs used in the examples *)

Module Inputs.
Import PyStr Normalizers Classifier Writer.
Local Open Scope list_scope.

Definition bp_systolic_type : string :=
  "HKQuantityTypeIdentifierBloodPressureSystolic".
Definition bp_diastolic_type : string :=
  "HKQuantityTypeIdentifierBloodPressureDiastolic".

Definition record_elem (ty v u : string) : element :=
  mkElement "Record" [("type", ty); ("value", v); ("unit", u)].

Definition correlation_elem : element :=
  mkElement "Correlation"
    [("type", "HKCorrelationTypeIdentifierBloodPressure");
     ("sourceName", "Cuff");
     ("startDate", "2025-11-28 13:16:43 -0500");
     ("endDate", "2025-11-28 13:16:43 -0500")].

(** A blood-pressure reading: a grouping element with its two children. *)
Definition reading : list event :=
  [ (EvStart, correlation_elem);
    (EvStart, record_elem bp_systolic_type "120" "mmHg");
    (EvEnd, record_elem bp_systolic_type "120" "mmHg");
    (EvStart, record_elem bp_diastolic_type "80" "mmHg");
    (EvEnd, record_elem bp_diastolic_type "80" "mmHg");
    (EvEnd, correlation_elem) ].

(** The correlation that [reading] finalizes. *)
Definition reading_correlation : correlation :=
  add_child
    (add_child (new_correlation correlation_elem)
               (mkChild bp_systolic_type
                        (make_row (record_elem bp_systolic_type "120" "mmHg"))))
    (mkChild bp_diastolic_type
             (make_row (record_elem bp_diastolic_type "80" "mmHg"))).

(** A grouping element whose only child has a type naming both components. *)
Definition mixed_reading : list event :=
  [ (EvStart, correlation_elem);
    (EvEnd, record_elem "SystolicDiastolic" "5" "mmHg");
    (EvEnd, correlation_elem) ].


Definition me_elem (dob sex blood skin : string) : element :=
  mkElement "Me"
    [("HKCharacteristicTypeIdentifierDateOfBirth", dob);
     ("HKCharacteristicTypeIdentifierBiologicalSex", sex);
     ("HKCharacteristicTypeIdentifierBloodType", blood);
     ("HKCharacteristicTypeIdentifierFitzpatrickSkinType", skin)].

Definition first_me : element :=
  me_elem "1980-01-01" "HKBiologicalSexMale" "HKBloodTypeAPositive"
          "HKFitzpatrickSkinTypeII".

Definition second_me : element :=
  me_elem "1990-02-03" "HKBiologicalSexFemale" "HKBloodTypeNotSet"
          "HKFitzpatrickSkinTypeNotSet".

Definition two_profiles : list event :=
  [ (EvStart, first_me); (EvEnd, first_me);
    (EvStart, second_me); (EvEnd, second_me) ].

End Inputs.

(* ------------------------------------------------------------------ *)
(** ** Notions used to describe the rest of the script's behaviour *)

Module Shape.
Import PyStr Normalizers Classifier Writer Spec.
Local Open Scope list_scope.

(** A character that [str.lower] leaves as it is; no letter A-Z is one. *)
Definition is_lowered (c : ascii) : bool := Ascii.eqb (lower_char c) c.

(** No two underscores stand side by side in [s]. *)
Fixpoint single_underscores (s : string) : bool :=
  match s with
  | EmptyString => true
  | String a r =>
      match r with
      | String b _ =>
          negb (is_underscore a && is_underscore b) && single_underscores r
      | EmptyString => true
      end
  end.

Definition no_leading_underscore (s : string) : bool :=
  match s with
  | String c _ => negb (is_underscore c)
  | EmptyString => true
  end.

(** The shape of a bucket name: lowercased, underscores single, none in
    front. *)
Definition snake_shaped (s : string) : bool :=
  all_in is_lowered s && single_underscores s && no_leading_underscore s.

(** A lowercase letter a-z of [s] is directly followed by a letter A-Z. *)
Fixpoint has_case_boundary (s : string) : bool :=
  match s with
  | EmptyString => false
  | String a r =>
      match r with
      | String b _ => (is_lower_az a && is_upper_AZ b) || has_case_boundary r
      | EmptyString => false
      end
  end.

(** The events the loop body reacts to: the start of a [Correlation] and
    the end of one of the five tags it tests. *)
Definition relevant (ev : event) : bool :=
  match fst ev with
  | EvStart => String.eqb (tag (snd ev)) "Correlation"
  | EvEnd =>
      existsb (String.eqb (tag (snd ev)))
              ["Me"; "Record"; "Correlation"; "Workout"; "ActivitySummary"]
  end.



(** The child that a [Record] element becomes inside a correlation. *)
Definition child_of (elem : element) : child :=
  mkChild (elem_get elem "type") (make_row elem).

(** No event of [evs] opens or closes a [Correlation]. *)
Definition correlation_free (evs : list event) : bool :=
  forallb (fun ev => negb (is_correlation_event ev)) evs.



(** The files that two states produce are the same although their
    correlations may differ: the correlations give the same rows. *)
Definition same_rows (a b : option correlation) : Prop :=
  match a, b with
  | Some x, Some y => make_bp_row x = make_bp_row y
  | None, None => True
  | _, _ => False
  end.

Definition same_output (st1 st2 : state) : Prop :=
  records st1 = records st2 /\
  workouts st1 = workouts st2 /\
  activity_summaries st1 = activity_summaries st2 /\
  map make_bp_row (correlations st1) = map make_bp_row (correlations st2) /\
  profile st1 = profile st2 /\
  in_correlation st1 = in_correlation st2 /\
  same_rows (current_correlation st1) (current_correlation st2).

(** A small document: a heart-rate record, a blood-pressure reading, a
    workout, a daily summary and a profile. *)
Definition heart_rate_elem : element :=
  mkElement "Record"
    [("type", "HKQuantityTypeIdentifierHeartRate"); ("sourceName", "Watch");
     ("value", "70"); ("unit", "count/min");
     ("startDate", "2025-11-28 13:16:43 -0500")].

Definition sample_day : list event :=
  [(EvStart, heart_rate_elem); (EvEnd, heart_rate_elem)]
  ++ Inputs.reading
  ++ [(EvEnd, mkElement "Workout"
                [("workoutActivityType", "HKWorkoutActivityTypeWalking")]);
      (EvEnd, mkElement "ActivitySummary" [("dateComponents", "2025-11-28")]);
      (EvEnd, Inputs.second_me)].

End Shape.

(* ------------------------------------------------------------------ *)
(** ** Facts about the string primitives *)

Module PyStrFacts.
Import PyStr.

Lemma length_append (a b : string) :
  String.length (a ++ b) = String.length a + String.length b.
Proof. induction a as [|x a IH]; simpl; [reflexivity | now rewrite IH]. Qed.

Lemma slice_from_empty (n : nat) : slice_from n "" = "".
Proof. destruct n; reflexivity. Qed.

Lemma slice_from_length_append (a b : string) :
  slice_from (String.length a) (a ++ b) = b.
Proof. induction a as [|x a IH]; simpl; [destruct b; reflexivity | exact IH]. Qed.

Lemma length_slice_from (n : nat) (s : string) :
  String.length (slice_from n s) = String.length s - n.
Proof.
  revert n; induction s as [|c r IH]; intros [|n]; simpl; try reflexivity.
  apply IH.
Qed.

Lemma slice_from_add (n m : nat) (s : string) :
  slice_from (n + m) s = slice_from m (slice_from n s).
Proof.
  revert s; induction n as [|n IH]; intros s; simpl.
  - reflexivity.
  - destruct s as [|c r]; [now rewrite slice_from_empty | apply IH].
Qed.

Lemma substring_slice_from (n : nat) (s : string) :
  substring 0 n s ++ slice_from n s = s.
Proof.
  revert s; induction n as [|n IH]; intros [|c r]; simpl; try reflexivity.
  now rewrite IH.
Qed.

Lemma startswith_append (p r : string) : startswith (p ++ r) p = true.
Proof.
  unfold startswith.
  induction p as [|c p IH]; simpl.
  - destruct r; reflexivity.
  - destruct (ascii_dec c c) as [_|ne]; [exact IH | now elim ne].
Qed.

Lemma is_underscore_true (c : ascii) : is_underscore c = true -> c = underscore.
Proof. unfold is_underscore; intros H; now apply Ascii.eqb_eq in H. Qed.

(** A sign is not whitespace, and an uppercase letter is not lowercase. *)
Lemma sign_not_space (c : ascii) : is_sign c = true -> is_space c = false.
Proof.
  destruct c as [[] [] [] [] [] [] [] []]; vm_compute; intros H;
    solve [reflexivity | discriminate H].
Qed.

Lemma upper_not_lower (c : ascii) : is_upper_AZ c = true -> is_lower_az c = false.
Proof.
  destruct c as [[] [] [] [] [] [] [] []]; vm_compute; intros H;
    solve [reflexivity | discriminate H].
Qed.

(** The scan skips [k] characters and then goes on as from scratch. *)
Lemma scan_from_skip (m : string -> option nat) (f : string -> string)
      (k : nat) (s : string) :
  scan_from m f k s = scan_from m f 0 (slice_from k s).
Proof.
  revert k; induction s as [|c r IH]; intros [|k]; simpl; try reflexivity.
  apply IH.
Qed.

(** Where the pattern matches nowhere, the text is copied. *)
Lemma scan_from_copy (m : string -> option nat) (f : string -> string)
      (c : ascii) (r : string) :
  m (String c r) = None ->
  scan_from m f 0 (String c r) = String c (scan_from m f 0 r).
Proof. intros H; simpl; now rewrite H. Qed.

Lemma scan_from_match (m : string -> option nat) (f : string -> string)
      (s : string) (n : nat) :
  truthy s = true ->
  m s = Some (S n) ->
  scan_from m f 0 s = f (slice_to (S n) s) ++ scan_from m f 0 (slice_from (S n) s).
Proof.
  destruct s as [|c r]; [discriminate|]; intros _ H.
  cbn [scan_from]. rewrite H. now rewrite scan_from_skip.
Qed.

End PyStrFacts.

(* ------------------------------------------------------------------ *)
(** ** The identifier normalizers *)

Module NormalizerFacts.
Import PyStr Normalizers Spec PyStrFacts.

Lemma strip_first_prefix_find (ps : list string) (s : string) :
  strip_first_prefix ps s =
  match find (fun p => startswith s p) ps with
  | Some p => slice_from (String.length p) s
  | None => s
  end.
Proof.
  induction ps as [|p ps IH]; simpl; [reflexivity|].
  destruct (startswith s p); [reflexivity | exact IH].
Qed.

Lemma sub_upper_inserts (s : string) :
  re_sub match_upper repl_underscore_group s = underscore_before_upper s.
Proof.
  unfold re_sub.
  induction s as [|c r IH]; [reflexivity|].
  cbn [scan_from match_upper underscore_before_upper].
  destruct (is_upper_AZ c); cbn; now rewrite IH.
Qed.

(** After a first underscore, collapsing drops the rest of the run. *)
Lemma collapse_after_underscore (r : string) :
  collapse_underscores (String underscore r) =
  String underscore
         (collapse_underscores (slice_from (run_length is_underscore r) r)).
Proof.
  induction r as [|c r IH]; [reflexivity|].
  cbn [collapse_underscores run_length].
  change (is_underscore underscore) with true. cbn iota.
  destruct (is_underscore c) eqn:Hc.
  - apply is_underscore_true in Hc; subst c. cbn [slice_from]. exact IH.
  - cbn [slice_from collapse_underscores]. now rewrite Hc.
Qed.

Lemma sub_underscores_skip (s : string) (k : nat) :
  k <= run_length is_underscore s ->
  scan_from match_underscores repl_one_underscore k s =
  collapse_underscores (slice_from k s).
Proof.
  revert k; induction s as [|c r IH]; intros k Hk.
  - now rewrite slice_from_empty.
  - destruct k as [|k].
    + cbn [scan_from slice_from]. destruct (is_underscore c) eqn:Hc.
      * pose proof (is_underscore_true _ Hc); subst c.
        assert (Hm : match_underscores (String underscore r)
                     = Some (S (run_length is_underscore r)))
          by (unfold match_underscores; cbn [run_length]; now rewrite Hc).
        rewrite Hm, collapse_after_underscore.
        unfold repl_one_underscore. cbn [append].
        f_equal. apply IH, Nat.le_refl.
      * assert (Hm : match_underscores (String c r) = None)
          by (unfold match_underscores; cbn [run_length]; now rewrite Hc).
        rewrite Hm. cbn [collapse_underscores]. rewrite Hc.
        f_equal. apply (IH 0), Nat.le_0_l.
    + cbn [scan_from slice_from]. apply IH.
      cbn [run_length] in Hk. destruct (is_underscore c); lia.
Qed.

Lemma sub_underscores_collapses (s : string) :
  re_sub match_underscores repl_one_underscore s = collapse_underscores s.
Proof. apply (sub_underscores_skip s 0), Nat.le_0_l. Qed.

(** Stripping all leading underscores and then collapsing the runs is
    collapsing first and then dropping the one leading underscore left. *)
Lemma collapse_lstrip (s : string) :
  collapse_underscores (lstrip_underscore s) =
  trim_leading_underscore (collapse_underscores s).
Proof.
  induction s as [|c r IH]; [reflexivity|].
  cbn [lstrip_underscore collapse_underscores].
  destruct (is_underscore c) eqn:Hc.
  - destruct r as [|c' r'];
      [cbn [trim_leading_underscore]; now rewrite Hc|].
    destruct (is_underscore c') eqn:Hc'.
    + exact IH.
    + cbn [trim_leading_underscore]. rewrite Hc.
      cbn [lstrip_underscore]. now rewrite Hc'.
  - cbn [collapse_underscores trim_leading_underscore].
    now rewrite Hc.
Qed.

Lemma snake_case_generic (s : string) : snake_case s = generic_name s.
Proof.
  unfold snake_case, generic_name, strip_known_prefix.
  rewrite sub_underscores_collapses, collapse_lstrip, sub_upper_inserts.
  now rewrite strip_first_prefix_find.
Qed.


Lemma replace_absent (old s : string) :
  contains old s = false -> replace_with_empty old s = s.
Proof.
  unfold replace_with_empty, re_sub.
  induction s as [|c r IH]; intros H; [reflexivity|].
  cbn [contains] in H. apply orb_false_elim in H as [H1 H2].
  rewrite scan_from_copy by (unfold match_literal; now rewrite H1).
  now rewrite IH.
Qed.

Lemma space_words_after_upper (b : ascii) (r : string) :
  is_upper_AZ b = true -> space_words (String b r) = String b (space_words r).
Proof.
  intros Hb. destruct r as [|c r]; [reflexivity|].
  cbn [space_words]. now rewrite (upper_not_lower _ Hb).
Qed.

Lemma space_words_pair (a b : ascii) (r : string) :
  space_words (String a (String b r)) =
  if is_lower_az a && is_upper_AZ b
  then String a (String " "%char (space_words (String b r)))
  else String a (space_words (String b r)).
Proof. reflexivity. Qed.

Lemma sub_lower_upper_spaces_aux (n : nat) :
  forall s, String.length s <= n ->
    re_sub match_lower_upper repl_space_between s = space_words s.
Proof.
  unfold re_sub.
  induction n as [|n IH]; intros s Hlen.
  - destruct s; [reflexivity | simpl in Hlen; lia].
  - destruct s as [|a r]; [reflexivity|].
    cbn [String.length] in Hlen.
    destruct (match_lower_upper (String a r)) as [k|] eqn:Hm.
    + destruct r as [|b r']; [discriminate|].
      cbn [match_lower_upper] in Hm.
      destruct (is_lower_az a && is_upper_AZ b) eqn:Hab; [|discriminate].
      rewrite (scan_from_match _ _ _ 1);
        [| reflexivity | cbn [match_lower_upper]; now rewrite Hab].
      cbn [slice_to slice_from repl_space_between append].
      cbn [String.length] in Hlen. rewrite IH by lia.
      apply andb_true_iff in Hab as [Ha Hb].
      rewrite space_words_pair, Ha, Hb. cbn [andb].
      now rewrite (space_words_after_upper _ _ Hb).
    + rewrite scan_from_copy by exact Hm.
      rewrite IH by lia.
      destruct r as [|b r']; [reflexivity|].
      cbn [match_lower_upper] in Hm. rewrite space_words_pair.
      destruct (is_lower_az a && is_upper_AZ b); [discriminate | reflexivity].
Qed.

Lemma sub_lower_upper_spaces (s : string) :
  re_sub match_lower_upper repl_space_between s = space_words s.
Proof. apply (sub_lower_upper_spaces_aux (String.length s)), Nat.le_refl. Qed.

(** *** The date normalizer *)

Lemma repl_empty_eq (m : string) : repl_empty m = "".
Proof. reflexivity. Qed.

Lemma run_length_all_in (cls : ascii -> bool) (w r : string) :
  all_in cls w = true ->
  run_length cls r = 0 ->
  run_length cls (w ++ r) = String.length w.
Proof.
  intros Hw Hr. induction w as [|c w IH]; [exact Hr|].
  cbn [all_in] in Hw. apply andb_true_iff in Hw as [Hc Hw].
  cbn [append run_length String.length]. rewrite Hc. now rewrite IH.
Qed.

(** The run of [cls] at the head of [s], split off. *)
Lemma run_length_split (cls : ascii -> bool) (s : string) :
  s = slice_to (run_length cls s) s ++ slice_from (run_length cls s) s /\
  all_in cls (slice_to (run_length cls s) s) = true /\
  String.length (slice_to (run_length cls s) s) = run_length cls s.
Proof.
  induction s as [|c r (IH1 & IH2 & IH3)]; [now repeat split|].
  cbn [run_length]. destruct (cls c) eqn:Hc.
  - cbn [slice_to slice_from append all_in String.length].
    rewrite Hc, IH2, IH3. repeat split. now rewrite <- IH1.
  - now repeat split.
Qed.

(** A run that starts in a text not ending in the class stops inside it. *)
Lemma run_length_stops (cls : ascii -> bool) (q r : string) :
  truthy q = true -> ends_in cls q = false ->
  run_length cls (q ++ r) < String.length q.
Proof.
  induction q as [|c q IH]; [discriminate|]. intros _ Hend.
  cbn [append run_length String.length].
  destruct (cls c) eqn:Hc; [|lia].
  destruct q as [|c' q'].
  - cbn [ends_in] in Hend. congruence.
  - apply -> Nat.succ_lt_mono. apply IH; [reflexivity | exact Hend].
Qed.

Lemma at_dollar_is_tail (tl : string) : at_dollar tl = is_tail tl.
Proof.
  destruct tl as [|c [|c' tl]]; try reflexivity.
  - unfold is_tail. cbn [at_dollar String.eqb orb].
    now destruct (Ascii.eqb c newline).
  - unfold is_tail. cbn [at_dollar String.eqb orb].
    now destruct (Ascii.eqb c newline).
Qed.

Lemma is_offset_length (o : string) : is_offset o = true -> String.length o = 5.
Proof.
  destruct o as [|a [|b [|c [|d [|e [|f o]]]]]]; simpl; intros H;
    solve [discriminate H | reflexivity].
Qed.

(** What a match of the pattern at the head of [s] looks like. *)
Lemma match_tz_some (s : string) (n : nat) :
  match_tz s = Some n ->
  exists w o tl,
    s = w ++ o ++ tl /\ truthy w = true /\ all_in is_space w = true /\
    is_offset o = true /\ is_tail tl = true /\ n = String.length w + 5.
Proof.
  unfold match_tz.
  destruct (run_length_split is_space s) as (Hs & Hall & Hlen).
  destruct (run_length is_space s) as [|k] eqn:Hk; [discriminate|].
  destruct (slice_from (S k) s)
    as [|sg [|d1 [|d2 [|d3 [|d4 tl]]]]] eqn:Hrest; try discriminate.
  destruct (is_sign sg && is_digit d1 && is_digit d2 && is_digit d3
            && is_digit d4 && at_dollar tl) eqn:Hc; [|discriminate].
  intros [= <-].
  apply andb_true_iff in Hc as [Hc Htl].
  exists (slice_to (S k) s),
         (String sg (String d1 (String d2 (String d3 (String d4 ""))))), tl.
  repeat split.
  - exact Hs.
  - destruct s; [discriminate Hk | reflexivity].
  - exact Hall.
  - exact Hc.
  - now rewrite <- at_dollar_is_tail.
  - now rewrite Hlen.
Qed.

(** The pattern matches a text made of whitespace, an offset and a tail. *)
Lemma match_tz_suffix (w o tl : string) :
  truthy w = true -> all_in is_space w = true ->
  is_offset o = true -> is_tail tl = true ->
  match_tz (w ++ o ++ tl) = Some (String.length w + 5).
Proof.
  intros Hw Hall Ho Htl.
  destruct o as [|sg [|d1 [|d2 [|d3 [|d4 [|x o]]]]]]; try discriminate.
  cbn [is_offset] in Ho.
  assert (Hsg : is_sign sg = true).
  { repeat (apply andb_true_iff in Ho as [Ho ?]). exact Ho. }
  set (o := String sg (String d1 (String d2 (String d3 (String d4 ""))))).
  assert (Hk : run_length is_space (w ++ o ++ tl) = String.length w).
  { apply run_length_all_in; [exact Hall|].
    subst o; cbn [append run_length]. now rewrite (sign_not_space _ Hsg). }
  pose proof (slice_from_length_append w (o ++ tl)) as Hsl.
  unfold match_tz. cbv zeta. rewrite Hk.
  destruct w as [|c w]; [discriminate|].
  cbn [String.length] in Hsl |- *. rewrite Hsl.
  subst o; cbn [append].
  rewrite Ho, at_dollar_is_tail, Htl. reflexivity.
Qed.

Lemma match_tz_long (q r : string) :
  truthy q = true -> ends_in is_space q = false ->
  6 <= String.length r ->
  match_tz (q ++ r) = None.
Proof.
  intros Hq Hend Hr.
  destruct (match_tz (q ++ r)) as [n|] eqn:Hm; [|reflexivity].
  exfalso.
  pose proof (run_length_stops is_space q r Hq Hend) as Hrun.
  unfold match_tz in Hm. cbv zeta in Hm.
  pose proof (length_slice_from (run_length is_space (q ++ r)) (q ++ r)) as Hl.
  rewrite length_append in Hl.
  destruct (run_length is_space (q ++ r)) as [|k]; [discriminate|].
  destruct (slice_from (S k) (q ++ r))
    as [|sg [|d1 [|d2 [|d3 [|d4 tl]]]]]; try discriminate.
  destruct tl as [|c [|c' tl]].
  - cbn [String.length] in Hl. lia.
  - cbn [String.length] in Hl. lia.
  - cbn [at_dollar] in Hm. rewrite !andb_false_r in Hm. discriminate.
Qed.

Lemma scan_tz_tail (tl : string) :
  is_tail tl = true -> scan_from match_tz repl_empty 0 tl = tl.
Proof.
  destruct tl as [|c [|c' tl]]; [reflexivity | | ].
  - intros _. unfold scan_from, match_tz. cbn [run_length].
    destruct (is_space c); reflexivity.
  - unfold is_tail. cbn [String.eqb orb].
    destruct (Ascii.eqb c newline); discriminate.
Qed.

Lemma scan_tz_passes (p r : string) :
  ends_in is_space p = false \/ p = "" ->
  6 <= String.length r ->
  scan_from match_tz repl_empty 0 (p ++ r)
  = p ++ scan_from match_tz repl_empty 0 r.
Proof.
  intros Hend Hr. induction p as [|c p IH]; [reflexivity|].
  destruct Hend as [Hend|Hend]; [|discriminate].
  cbn [append].
  rewrite scan_from_copy
    by (apply (match_tz_long (String c p) r); [reflexivity | exact Hend | exact Hr]).
  f_equal. apply IH.
  destruct p as [|c' p']; [now right | now left].
Qed.

Lemma clean_date_strips (p w o tl : string) :
  ends_in is_space p = false ->
  truthy w = true -> all_in is_space w = true ->
  is_offset o = true -> is_tail tl = true ->
  clean_date (p ++ w ++ o ++ tl) = p ++ tl.
Proof.
  intros Hend Hw Hall Ho Htl.
  assert (Hne : truthy (p ++ w ++ o ++ tl) = true).
  { destruct p; [destruct w; [discriminate | reflexivity] | reflexivity]. }
  unfold clean_date, re_sub. rewrite Hne.
  rewrite scan_tz_passes.
  - f_equal.
    rewrite (scan_from_match _ _ _ (String.length w + 4)).
    + rewrite repl_empty_eq. cbn [append].
      replace (S (String.length w + 4)) with (String.length w + 5) by lia.
      rewrite slice_from_add, slice_from_length_append.
      rewrite <- (is_offset_length o Ho), slice_from_length_append.
      now apply scan_tz_tail.
    + destruct w; [discriminate | reflexivity].
    + rewrite (match_tz_suffix w o tl Hw Hall Ho Htl). f_equal. lia.
  - destruct p; [now right | now left].
  - rewrite !length_append, (is_offset_length o Ho).
    destruct w; [discriminate | simpl; lia].
Qed.

Lemma scan_tz_length (k : nat) (s : string) :
  String.length (scan_from match_tz repl_empty k s) <= String.length s - k.
Proof.
  revert k. induction s as [|c r IH]; intros k; [simpl; lia|].
  destruct k as [|k]; cbn [scan_from String.length].
  - destruct (match_tz (String c r)) as [[|n]|].
    + cbn [String.length]. specialize (IH 0). lia.
    + rewrite repl_empty_eq. cbn [append]. specialize (IH n). lia.
    + cbn [String.length]. specialize (IH 0). lia.
  - apply IH.
Qed.

Lemma has_tz_suffix_cons (c : ascii) (s : string) :
  has_tz_suffix s -> has_tz_suffix (String c s).
Proof.
  intros (p & w & o & tl & -> & H). exists (String c p), w, o, tl. now split.
Qed.

Lemma scan_tz_shrinks (s : string) :
  has_tz_suffix s ->
  String.length (scan_from match_tz repl_empty 0 s) < String.length s.
Proof.
  intros (p & w & o & tl & -> & Hw & Hall & Ho & Htl).
  induction p as [|c p IH].
  - cbn [append].
    rewrite (scan_from_match _ _ _ (String.length w + 4)).
    + rewrite repl_empty_eq. cbn [append].
      pose proof (scan_tz_length 0 (slice_from (S (String.length w + 4))
                                               (w ++ o ++ tl))) as H.
      rewrite length_slice_from in H. rewrite !length_append in *.
      rewrite (is_offset_length o Ho) in *. lia.
    + destruct w; [discriminate | reflexivity].
    + rewrite (match_tz_suffix w o tl Hw Hall Ho Htl). f_equal. lia.
  - cbn [append scan_from String.length].
    destruct (match_tz (String c (p ++ w ++ o ++ tl))) as [[|n]|].
    + cbn [String.length]. lia.
    + rewrite repl_empty_eq. cbn [append].
      pose proof (scan_tz_length n (p ++ w ++ o ++ tl)). lia.
    + cbn [String.length]. lia.
Qed.

Lemma scan_tz_unchanged (s : string) :
  ~ has_tz_suffix s -> scan_from match_tz repl_empty 0 s = s.
Proof.
  induction s as [|c r IH]; intros Hno; [reflexivity|].
  destruct (match_tz (String c r)) as [n|] eqn:Hm.
  - exfalso. apply Hno.
    destruct (match_tz_some _ _ Hm) as (w & o & tl & Hs & Hw & Hall & Ho & Htl & _).
    exists "", w, o, tl. now repeat split.
  - rewrite scan_from_copy by exact Hm.
    f_equal. apply IH. intros H. apply Hno. now apply has_tz_suffix_cons.
Qed.

(** The strings that [clean_date] leaves alone are those without a suffix. *)
Lemma clean_date_fixed_iff (s : string) :
  clean_date s = s <-> ~ has_tz_suffix s.
Proof.
  split.
  - intros Heq Hs. apply scan_tz_shrinks in Hs.
    unfold clean_date, re_sub in Heq.
    destruct s as [|c r]; [simpl in Hs; lia|].
    cbn [truthy] in Heq. rewrite Heq in Hs. lia.
  - intros Hno. unfold clean_date, re_sub.
    destruct s as [|c r]; [reflexivity|].
    cbn [truthy]. now apply scan_tz_unchanged.
Qed.

(** *** The claims about the normalizers *)

Lemma dict_get_missing {V : Type} (k : string) (d : list (string * V)) :
  dict_get k d = None -> dict_contains k d = false.
Proof.
  unfold dict_contains. induction d as [|[k' v] d IH]; [reflexivity|].
  cbn [dict_get existsb fst]. destruct (String.eqb k' k); [discriminate|].
  exact IH.
Qed.

Lemma dict_contains_missing {V : Type} (k : string) (d : list (string * V)) :
  dict_contains k d = false -> dict_get k d = None.
Proof.
  unfold dict_contains. induction d as [|[k' v] d IH]; [reflexivity|].
  cbn [dict_get existsb fst]. destruct (String.eqb k' k); [discriminate|].
  exact IH.
Qed.


Example friendly_name_heart_rate :
  friendly_name "HKQuantityTypeIdentifierHeartRate" = "heart_rate".
Proof. reflexivity. Qed.

Example friendly_name_unknown :
  friendly_name "HKQuantityTypeIdentifierBodyFatPercentage"
  = "body_fat_percentage".
Proof. reflexivity. Qed.

Example friendly_name_one_prefix_only :
  friendly_name "HKDataTypeHKDataTypeX" = "h_k_data_type_x".
Proof. reflexivity. Qed.

(** C6. The five identifier normalizers are functions from strings to
    strings, defined on every string.  The one operation of theirs that can
    raise, the subscript of the table, is only reached under the membership
    test, so a call of [friendly_name] always returns.  On the empty string
    each normalizer returns the empty string, and an identifier that is not
    a key of the table is named by the generic rule; [clean_workout_type]
    returns its argument with or without the prefix. *)
Theorem normalizers_total :
  (friendly_name "" = "" /\ clean_workout_type "" = "" /\
   clean_bio_sex "" = "" /\ clean_blood_type "" = "" /\
   clean_skin_type "" = "") /\
  (forall s, friendly_name_outcome s = Some (friendly_name s)) /\
  (forall s, dict_get s TYPE_NAMES = None -> friendly_name s = generic_name s) /\
  (forall s, clean_workout_type s = s \/
             s = WORKOUT_ACTIVITY_PREFIX ++ clean_workout_type s).
Proof.
  split; [now repeat split|]. split; [|split].
  - intros s. unfold friendly_name_outcome, friendly_name.
    destruct (dict_contains s TYPE_NAMES) eqn:Hin.
    + destruct (dict_get s TYPE_NAMES) eqn:Hget; [reflexivity|].
      now rewrite (dict_get_missing _ _ Hget) in Hin.
    + now rewrite (dict_contains_missing _ _ Hin).
  - intros s Hs. unfold friendly_name. rewrite Hs. apply snake_case_generic.
  - intros s. unfold clean_workout_type.
    destruct (startswith s WORKOUT_ACTIVITY_PREFIX) eqn:Hp; [right | now left].
    unfold startswith in Hp. apply prefix_correct in Hp.
    rewrite <- Hp at 1. symmetry. apply substring_slice_from.
Qed.

Lemma normalizers_total_witness :
  friendly_name "HKQuantityTypeIdentifierUnknownThing" = "unknown_thing".
Proof.
  rewrite (proj1 (proj2 (proj2 normalizers_total))); reflexivity.
Defined.



Example clean_blood_type_not_set : clean_blood_type "HKBloodTypeNotSet" = "Not Set".
Proof. reflexivity. Qed.

Example clean_bio_sex_male : clean_bio_sex "HKBiologicalSexMale" = "Male".
Proof. reflexivity. Qed.


(** C2, as the code has it.  [clean_date] removes one timezone-offset
    suffix: a run of whitespace and a signed four-digit offset, standing at
    the end of the string or before one final newline.  The strings it
    returns unchanged are exactly those without such a suffix; a string
    that carries the suffix after a text [p] not ending in whitespace is
    mapped to [p] (and the final newline, if any); normalizing again changes
    nothing provided what is left carries no further suffix; and the
    documented example holds. *)
Theorem clean_date_strips_one_offset :
  (forall s, clean_date s = s <-> ~ has_tz_suffix s) /\
  (forall p w o tl,
      ends_in is_space p = false ->
      truthy w = true -> all_in is_space w = true ->
      is_offset o = true -> is_tail tl = true ->
      clean_date (p ++ w ++ o ++ tl) = p ++ tl /\
      (~ has_tz_suffix (p ++ tl) ->
       clean_date (clean_date (p ++ w ++ o ++ tl))
       = clean_date (p ++ w ++ o ++ tl))) /\
  clean_date "2025-11-28 13:16:43 -0500" = "2025-11-28 13:16:43".
Proof.
  split; [exact clean_date_fixed_iff|]. split; [|reflexivity].
  intros p w o tl Hend Hw Hall Ho Htl.
  pose proof (clean_date_strips p w o tl Hend Hw Hall Ho Htl) as H.
  split; [exact H|].
  intros Hno. rewrite H. now apply clean_date_fixed_iff.
Qed.

Lemma clean_date_strips_one_offset_witness :
  clean_date ("2025-11-28 13:16:43" ++ " " ++ "+0130" ++ "")
  = "2025-11-28 13:16:43" ++ "" /\
  clean_date (clean_date ("2025-11-28 13:16:43" ++ " " ++ "+0130" ++ ""))
  = clean_date ("2025-11-28 13:16:43" ++ " " ++ "+0130" ++ "").
Proof.
  destruct clean_date_strips_one_offset as (Hfix & Hstrip & _).
  destruct (Hstrip "2025-11-28 13:16:43" " " "+0130" "") as [H1 H2];
    try reflexivity.
  split; [exact H1|]. apply H2. apply Hfix. reflexivity.
Defined.

(** C2 as stated fails: normalizing twice removes a second offset. *)
Lemma clean_date_not_idempotent :
  clean_date "2025-11-28 13:16:43 -0500 -0500" = "2025-11-28 13:16:43 -0500" /\
  clean_date (clean_date "2025-11-28 13:16:43 -0500 -0500")
  <> clean_date "2025-11-28 13:16:43 -0500 -0500".
Proof. split; [reflexivity | discriminate]. Qed.

(** Whitespace other than the space, and a final newline, are part of the
    suffix the pattern describes. *)
Example clean_date_tab_and_newline :
  clean_date (String "a" (String (ascii_of_nat 9) "-0500")) = "a" /\
  clean_date (String "a" (" -0500" ++ String newline "")) = String "a" (String newline "").
Proof. split; reflexivity. Qed.

End NormalizerFacts.

(* ------------------------------------------------------------------ *)
(** ** The streaming classifier *)

Module ClassifierFacts.
Import PyStr Normalizers Classifier Writer Spec Inputs.
Local Open Scope list_scope.

(** Case analysis on the tag tests of the loop body, in their order. *)
Ltac tag_cases elem :=
  destruct (String.eqb (tag elem) "Me") eqn:?HMe;
  [| destruct (String.eqb (tag elem) "Record") eqn:?HRecord;
     [| destruct (String.eqb (tag elem) "Correlation") eqn:?HCorrelation;
        [| destruct (String.eqb (tag elem) "Workout") eqn:?HWorkout;
           [| destruct (String.eqb (tag elem) "ActivitySummary") eqn:?HSummary]]]].

Ltac record_cases st :=
  unfold end_record;
  destruct (in_correlation st) eqn:?Hflag;
  destruct (current_correlation st) eqn:?Hcur;
  try destruct (negb (set_mem _ BP_TYPES)) eqn:?Hbp.

Lemma run_from_app (st : state) (a b : list event) :
  run_from st (a ++ b) = run_from (run_from st a) b.
Proof. apply fold_left_app. Qed.

Lemma run_app (a b : list event) : run (a ++ b) = run_from (run a) b.
Proof. apply run_from_app. Qed.


(** *** The flag and the reference *)

Lemma step_keeps_invariant (st : state) (ev : event) :
  flag_matches_reference st -> flag_matches_reference (step st ev).
Proof.
  unfold flag_matches_reference. intros Hinv.
  destruct ev as [[|] elem]; unfold step.
  - destruct (String.eqb (tag elem) "Correlation"); [|exact Hinv].
    cbn. split; [discriminate | reflexivity].
  - tag_cases elem; try exact Hinv.
    + record_cases st; cbn; rewrite ?Hflag, ?Hcur in *; try exact Hinv.
      split; [discriminate | reflexivity].
    + unfold end_correlation. cbn. split; [discriminate | intros H; now elim H].
Qed.

Lemma init_invariant : flag_matches_reference init.
Proof. split; [discriminate | intros H; now elim H]. Qed.

Lemma run_from_keeps_invariant (evs : list event) :
  forall st, flag_matches_reference st -> flag_matches_reference (run_from st evs).
Proof.
  induction evs as [|ev evs IH]; intros st Hst; [exact Hst|].
  apply IH. now apply step_keeps_invariant.
Qed.

Lemma run_invariant (evs : list event) : flag_matches_reference (run evs).
Proof. apply run_from_keeps_invariant, init_invariant. Qed.

Lemma run_closed_flag (evs : list event) :
  current_correlation (run evs) = None -> in_correlation (run evs) = false.
Proof.
  intros Hcur. destruct (run_invariant evs) as [H _].
  destruct (in_correlation (run evs)); [|reflexivity].
  now elim (H eq_refl).
Qed.

Lemma run_open_flag (evs : list event) (corr : correlation) :
  current_correlation (run evs) = Some corr -> in_correlation (run evs) = true.
Proof.
  intros Hcur. destruct (run_invariant evs) as [_ H].
  apply H. rewrite Hcur. discriminate.
Qed.

(** *** What each bucket holds after the loop *)

Ltac tag_known H := apply String.eqb_eq in H; rewrite H in *.



Lemma step_profile (st : state) (ev : event) :
  profile (step st ev) =
  if is_end_of "Me" ev then Some (make_profile (snd ev)) else profile st.
Proof.
  destruct ev as [[|] elem]; unfold step, is_end_of; cbn [fst snd].
  - destruct (String.eqb (tag elem) "Correlation"); reflexivity.
  - tag_cases elem; try reflexivity.
    + record_cases st; reflexivity.
    + unfold end_correlation. destruct (current_correlation st); reflexivity.
Qed.

Lemma step_correlations (st : state) (ev : event) :
  correlations (step st ev) =
  correlations st
  ++ (if is_end_of "Correlation" ev
      then match current_correlation st with Some corr => [corr] | None => [] end
      else []).
Proof.
  destruct ev as [[|] elem]; unfold step, is_end_of; cbn [fst snd].
  - destruct (String.eqb (tag elem) "Correlation"); cbn; now rewrite app_nil_r.
  - tag_cases elem.
    + tag_known HMe. cbn. now rewrite app_nil_r.
    + tag_known HRecord. record_cases st; cbn; now rewrite app_nil_r.
    + unfold end_correlation.
      destruct (current_correlation st); cbn; [reflexivity | now rewrite app_nil_r].
    + cbn. now rewrite app_nil_r.
    + cbn. now rewrite app_nil_r.
    + now rewrite app_nil_r.
Qed.





Lemma run_from_profile_kept (evs : list event) :
  forall st, ended "Me" evs = [] -> profile (run_from st evs) = profile st.
Proof.
  unfold ended.
  induction evs as [|ev evs IH]; intros st Hno; [reflexivity|].
  cbn [run_from fold_left].
  change (fold_left step evs (step st ev)) with (run_from (step st ev) evs).
  cbn [filter] in Hno.
  destruct (is_end_of "Me" ev) eqn:Hev; [discriminate Hno|].
  rewrite IH by exact Hno. now rewrite step_profile, Hev.
Qed.




(** *** The claims about the classifier *)

(** C10. The flag [in_correlation] is true exactly when
    [current_correlation] is not [None]: initially, after each event from a
    state where it holds, and so after every sequence of events.  Opening a
    [Correlation] sets both, closing one clears both, and no other event
    changes the flag or whether the reference is [None]. *)
Theorem flag_iff_reference :
  flag_matches_reference init /\
  (forall st ev, flag_matches_reference st -> flag_matches_reference (step st ev)) /\
  (forall evs, flag_matches_reference (run evs)) /\
  (forall st elem, tag elem = "Correlation" ->
     in_correlation (step st (EvStart, elem)) = true /\
     current_correlation (step st (EvStart, elem)) = Some (new_correlation elem)) /\
  (forall st elem, tag elem = "Correlation" ->
     in_correlation (step st (EvEnd, elem)) = false /\
     current_correlation (step st (EvEnd, elem)) = None) /\
  (forall st ev, is_correlation_event ev = false ->
     in_correlation (step st ev) = in_correlation st /\
     (current_correlation (step st ev) = None <-> current_correlation st = None)).
Proof.
  split; [exact init_invariant|].
  split; [exact step_keeps_invariant|].
  split; [exact run_invariant|].
  split; [|split].
  - intros st elem Htag. unfold step. rewrite Htag. now split.
  - intros st elem Htag. unfold step. rewrite Htag. now split.
  - intros st [kind elem] Hev. unfold is_correlation_event in Hev.
    cbn [snd] in Hev. unfold step. rewrite Hev.
    destruct kind; [now split|].
    tag_cases elem; try (now split).
    record_cases st; cbn; rewrite ?Hflag, ?Hcur; split;
      solve [reflexivity | split; intros H; solve [discriminate H | reflexivity]].
Qed.

Lemma flag_iff_reference_witness :
  flag_matches_reference (step init (EvStart, correlation_elem)) /\
  in_correlation (step init (EvStart, correlation_elem)) = true /\
  in_correlation (step (step init (EvStart, correlation_elem))
                       (EvEnd, correlation_elem)) = false /\
  in_correlation (step init (EvEnd, first_me)) = in_correlation init.
Proof.
  destruct flag_iff_reference as (Hinit & Hstep & _ & Hopen & Hclose & Hother).
  split; [apply Hstep, Hinit|].
  split; [apply Hopen; reflexivity|].
  split; [apply Hclose; reflexivity|].
  apply Hother; reflexivity.
Defined.



(** C7. After any sequence of events that leaves no correlation held, the
    close of a [Correlation] element changes nothing: the state after the
    event is the state before it, so nothing is appended to [correlations]
    and the flag and the reference are as before. *)
Theorem stray_close_is_noop (evs : list event) (elem : element) :
  tag elem = "Correlation" ->
  current_correlation (run evs) = None ->
  step (run evs) (EvEnd, elem) = run evs.
Proof.
  intros Htag Hcur. pose proof (run_closed_flag evs Hcur) as Hflag.
  unfold step. rewrite Htag. cbn [String.eqb Ascii.eqb Bool.eqb].
  unfold end_correlation. rewrite Hcur.
  destruct (run evs) as [rs ws su cs pr flag cur].
  cbn in Hcur, Hflag |- *. now subst.
Qed.

Lemma stray_close_is_noop_witness :
  step (run reading) (EvEnd, correlation_elem) = run reading.
Proof.
  apply (stray_close_is_noop reading correlation_elem); reflexivity.
Defined.

(** C9. When the last [Me] element of a sequence of events closes with the
    attributes [elem], the profile after the loop is built from [elem]
    alone, whatever came before: the date of birth as it is, the other three
    fields through [clean_bio_sex], [clean_blood_type] and
    [clean_skin_type]; and the profile file holds that one row. *)
Theorem profile_last_wins (evs1 evs2 : list event) (elem : element) :
  tag elem = "Me" ->
  ended "Me" evs2 = [] ->
  let st := run (evs1 ++ (EvEnd, elem) :: evs2) in
  let dob := elem_get elem "HKCharacteristicTypeIdentifierDateOfBirth" in
  let sex := clean_bio_sex
               (elem_get elem "HKCharacteristicTypeIdentifierBiologicalSex") in
  let blood := clean_blood_type
                 (elem_get elem "HKCharacteristicTypeIdentifierBloodType") in
  let skin := clean_skin_type
                (elem_get elem "HKCharacteristicTypeIdentifierFitzpatrickSkinType") in
  profile st = Some (mkProfile dob sex blood skin) /\
  profile_files st
  = [mkFile "profile.csv" profile_fields [[dob; sex; blood; skin]]].
Proof.
  intros Htag Hlast st dob sex blood skin.
  assert (H : profile st = Some (mkProfile dob sex blood skin)).
  { subst st. rewrite run_app. cbn [run_from fold_left].
    change (fold_left step evs2 ?s) with (run_from s evs2).
    rewrite (run_from_profile_kept evs2 _ Hlast), step_profile.
    unfold is_end_of. cbn [fst snd]. now rewrite Htag. }
  split; [exact H|]. unfold profile_files. now rewrite H.
Qed.

Lemma profile_last_wins_witness :
  profile (run two_profiles)
  = Some (mkProfile "1990-02-03" "Female" "Not Set" "Not Set").
Proof.
  apply (profile_last_wins [(EvStart, first_me); (EvEnd, first_me);
                            (EvStart, second_me)] [] second_me);
    reflexivity.
Defined.

End ClassifierFacts.

(* ------------------------------------------------------------------ *)
(** ** The table writer *)

Module WriterFacts.
Import PyStr Normalizers Classifier Writer Spec Inputs ClassifierFacts.
Local Open Scope list_scope.

(** *** Blood-pressure rows *)

Lemma last_such_some {A : Type} (f : A -> bool) (l : list A) (x : A) :
  last_such f l = Some x -> In x l /\ f x = true.
Proof.
  induction l as [|y l IH]; [discriminate|].
  cbn [last_such]. destruct (last_such f l) as [z|].
  - intros [= ->]. destruct (IH eq_refl) as [Hin Hf]. split; [now right | exact Hf].
  - destruct (f y) eqn:Hy; [|discriminate].
    intros [= ->]. split; [now left | exact Hy].
Qed.

Lemma last_such_none {A : Type} (f : A -> bool) (l : list A) :
  last_such f l = None -> forall x, In x l -> f x = false.
Proof.
  induction l as [|y l IH]; [intros _ x []|].
  cbn [last_such]. destruct (last_such f l) as [z|]; [discriminate|].
  destruct (f y) eqn:Hy; [discriminate|].
  intros _ x [<-|Hin]; [exact Hy | now apply IH].
Qed.

(** The three variables after the loop over the children. *)
Lemma fold_scan_child (l : list child) :
  forall s d u,
    fold_left scan_child l (s, d, u) =
    (match last_such is_systolic l with
     | Some c => value (rec_row c) | None => s end,
     match last_such is_diastolic_only l with
     | Some c => value (rec_row c) | None => d end,
     match last_such is_systolic l with
     | Some c => unit (rec_row c) | None => u end).
Proof.
  induction l as [|x l IH]; intros s d u; [reflexivity|].
  cbn [fold_left last_such].
  assert (Hx : scan_child (s, d, u) x =
               if is_systolic x then (value (rec_row x), d, unit (rec_row x))
               else if is_diastolic x then (s, value (rec_row x), u)
               else (s, d, u)) by reflexivity.
  assert (Hdo : is_diastolic_only x = is_diastolic x && negb (is_systolic x))
    by reflexivity.
  rewrite Hx, Hdo.
  destruct (is_systolic x), (is_diastolic x); rewrite IH; cbn [andb negb];
    destruct (last_such is_systolic l), (last_such is_diastolic_only l);
    reflexivity.
Qed.

Lemma make_bp_row_fields (corr : correlation) :
  make_bp_row corr =
  mkBpRow
    (match last_such is_systolic (corr_records corr) with
     | Some c => value (rec_row c) | None => "" end)
    (match last_such is_diastolic_only (corr_records corr) with
     | Some c => value (rec_row c) | None => "" end)
    (match last_such is_systolic (corr_records corr) with
     | Some c => unit (rec_row c) | None => "" end)
    (sourceName corr) (clean_date (startDate corr)) (clean_date (endDate corr)).
Proof. unfold make_bp_row. now rewrite fold_scan_child. Qed.

Lemma step_bp_rows (st : state) (ev : event) :
  bp_rows (step st ev) =
  bp_rows st
  ++ (if is_end_of "Correlation" ev
      then match current_correlation st with
           | Some corr => [make_bp_row corr] | None => [] end
      else []).
Proof.
  unfold bp_rows. rewrite step_correlations, map_app.
  destruct (is_end_of "Correlation" ev); [|reflexivity].
  now destruct (current_correlation st).
Qed.

(** *** Which files are written *)

















(** *** The claims about the writer *)

(** C3, as the code has it.  There is one blood-pressure row per
    correlation of the list, in the order of the list; the close of a
    [Correlation] element that finds a correlation held adds the row of
    that correlation at the end, and no other event changes the rows.  In
    the row of a correlation, the systolic value and the unit are those of
    a child whose type contains "Systolic"; the diastolic value is that of
    a child whose type contains "Diastolic" and does not contain
    "Systolic" (a child naming both counts as systolic only); a component
    without such a child is the empty string. *)
Theorem blood_pressure_rows :
  (forall st, List.length (bp_rows st) = List.length (correlations st) /\
              forall i corr, nth_error (correlations st) i = Some corr ->
                             nth_error (bp_rows st) i = Some (make_bp_row corr)) /\
  (forall st elem corr,
      tag elem = "Correlation" -> current_correlation st = Some corr ->
      correlations (step st (EvEnd, elem)) = correlations st ++ [corr] /\
      bp_rows (step st (EvEnd, elem)) = bp_rows st ++ [make_bp_row corr]) /\
  (forall st ev, is_end_of "Correlation" ev = false ->
                 bp_rows (step st ev) = bp_rows st) /\
  (forall corr,
      let r := make_bp_row corr in
      let children := corr_records corr in
      ((exists c, In c children /\ is_systolic c = true) ->
       exists c, In c children /\ is_systolic c = true /\
                 bp_systolic r = value (rec_row c) /\
                 bp_unit r = unit (rec_row c)) /\
      ((forall c, In c children -> is_systolic c = false) ->
       bp_systolic r = "" /\ bp_unit r = "") /\
      ((exists c, In c children /\ is_diastolic_only c = true) ->
       exists c, In c children /\ is_diastolic_only c = true /\
                 bp_diastolic r = value (rec_row c)) /\
      ((forall c, In c children -> is_diastolic_only c = false) ->
       bp_diastolic r = "")) /\
  bp_rows (run reading)
  = [mkBpRow "120" "80" "mmHg" "Cuff" "2025-11-28 13:16:43" "2025-11-28 13:16:43"].
Proof.
  split; [|split; [|split; [|split; [|reflexivity]]]].
  - intros st. unfold bp_rows. split; [apply length_map|].
    intros i corr H. now rewrite nth_error_map, H.
  - intros st elem corr Htag Hcur.
    rewrite step_bp_rows, step_correlations.
    unfold is_end_of. cbn [fst snd]. rewrite Htag, Hcur. now split.
  - intros st ev Hev. rewrite step_bp_rows, Hev. apply app_nil_r.
  - intros corr r children. subst r children.
    rewrite make_bp_row_fields. cbn [bp_systolic bp_diastolic bp_unit].
    split; [|split; [|split]].
    + intros (c & Hin & Hc).
      destruct (last_such is_systolic (corr_records corr)) as [cs|] eqn:Hs.
      * destruct (last_such_some _ _ _ Hs) as [Hin' Hf]. exists cs. now repeat split.
      * pose proof (last_such_none _ _ Hs c Hin). congruence.
    + intros Hall.
      destruct (last_such is_systolic (corr_records corr)) as [cs|] eqn:Hs.
      * destruct (last_such_some _ _ _ Hs) as [Hin Hf].
        rewrite (Hall _ Hin) in Hf. discriminate.
      * now split.
    + intros (c & Hin & Hc).
      destruct (last_such is_diastolic_only (corr_records corr)) as [cd|] eqn:Hd.
      * destruct (last_such_some _ _ _ Hd) as [Hin' Hf]. exists cd. now repeat split.
      * pose proof (last_such_none _ _ Hd c Hin). congruence.
    + intros Hall.
      destruct (last_such is_diastolic_only (corr_records corr)) as [cd|] eqn:Hd.
      * destruct (last_such_some _ _ _ Hd) as [Hin Hf].
        rewrite (Hall _ Hin) in Hf. discriminate.
      * reflexivity.
Qed.

Lemma blood_pressure_rows_witness :
  bp_rows (step (step init (EvStart, correlation_elem)) (EvEnd, correlation_elem))
  = bp_rows (step init (EvStart, correlation_elem))
    ++ [make_bp_row (new_correlation correlation_elem)] /\
  bp_rows (step init (EvEnd, first_me)) = bp_rows init /\
  bp_systolic (make_bp_row (new_correlation correlation_elem)) = "" /\
  bp_diastolic (make_bp_row (new_correlation correlation_elem)) = "" /\
  (exists c, In c (corr_records reading_correlation) /\ is_systolic c = true /\
             bp_systolic (make_bp_row reading_correlation) = value (rec_row c) /\
             bp_unit (make_bp_row reading_correlation) = unit (rec_row c)) /\
  (exists c, In c (corr_records reading_correlation) /\
             is_diastolic_only c = true /\
             bp_diastolic (make_bp_row reading_correlation) = value (rec_row c)).
Proof.
  destruct blood_pressure_rows as (_ & Hclose & Hother & Hrow & _).
  split; [|split; [|split; [|split; [|split]]]].
  - apply (Hclose (step init (EvStart, correlation_elem)) correlation_elem);
      reflexivity.
  - apply Hother. reflexivity.
  - apply (Hrow (new_correlation correlation_elem)). intros c [].
  - apply (Hrow (new_correlation correlation_elem)). intros c [].
  - apply (Hrow reading_correlation).
    eexists. split; [left; reflexivity | reflexivity].
  - apply (Hrow reading_correlation).
    eexists. split; [right; left; reflexivity | reflexivity].
Defined.

Example reading_finalizes :
  correlations (run reading) = [reading_correlation].
Proof. reflexivity. Qed.

(** C3 as stated fails: the only child of this correlation has a type that
    contains "Diastolic", and the diastolic field of the row is empty, which
    is the value of no such child. *)
Lemma diastolic_child_not_used :
  exists corr,
    correlations (run mixed_reading) = [corr] /\
    (exists c, In c (corr_records corr) /\ is_diastolic c = true) /\
    bp_diastolic (make_bp_row corr) = "" /\
    (forall c, In c (corr_records corr) -> is_diastolic c = true ->
               bp_diastolic (make_bp_row corr) <> value (rec_row c)).
Proof.
  eexists. split; [reflexivity|]. split; [|split].
  - eexists. split; [left; reflexivity | reflexivity].
  - reflexivity.
  - intros c [<-|[]] _. discriminate.
Qed.



(** A record category is written to the path made of its normalized name,
    whatever that name is: with no [Workout] element at all, the category
    of the type "Workouts" is a file at the path of the workouts table, with
    the columns of a category file. *)
Example category_file_at_table_path :
  convert [(EvEnd, record_elem "Workouts" "1" "count")]
  = [mkFile "workouts.csv" record_fields [[""; "1"; "count"; ""; ""; ""]]].
Proof. reflexivity. Qed.

End WriterFacts.

(* ------------------------------------------------------------------ *)
(** ** Further properties of the normalizers *)

Module NormalizerShape.
Import PyStr Normalizers Spec Shape PyStrFacts NormalizerFacts.
Local Open Scope list_scope.

Lemma dict_get_some_in {V : Type} (k : string) (v : V) (d : list (string * V)) :
  dict_get k d = Some v -> In (k, v) d.
Proof.
  induction d as [|[k' v'] d IH]; [discriminate|].
  cbn [dict_get]. destruct (String.eqb_spec k' k) as [->|_].
  - intros [= ->]. now left.
  - intros H. right. now apply IH.
Qed.

Lemma lower_char_lowered (c : ascii) : is_lowered (lower_char c) = true.
Proof. destruct c as [[] [] [] [] [] [] [] []]; vm_compute; reflexivity. Qed.

Lemma lowered_not_upper (c : ascii) : is_lowered c = true -> is_upper_AZ c = false.
Proof.
  destruct c as [[] [] [] [] [] [] [] []]; vm_compute; intros H;
    solve [reflexivity | discriminate H].
Qed.

Lemma lower_all_lowered (s : string) : all_in is_lowered (lower s) = true.
Proof.
  induction s as [|c r IH]; [reflexivity|].
  cbn [lower all_in]. now rewrite lower_char_lowered, IH.
Qed.

Lemma lstrip_all_in (cls : ascii -> bool) (s : string) :
  all_in cls s = true -> all_in cls (lstrip_underscore s) = true.
Proof.
  induction s as [|c r IH]; [reflexivity|]. intros H.
  cbn [lstrip_underscore]. destruct (is_underscore c); [|exact H].
  cbn [all_in] in H. apply andb_true_iff in H as [_ H]. now apply IH.
Qed.

Lemma collapse_all_in (cls : ascii -> bool) (s : string) :
  all_in cls s = true -> all_in cls (collapse_underscores s) = true.
Proof.
  induction s as [|c r IH]; [reflexivity|]. intros H.
  cbn [all_in] in H. apply andb_true_iff in H as [Hc Hr].
  specialize (IH Hr). cbn [collapse_underscores].
  destruct (is_underscore c).
  - destruct r as [|c' r']; [cbn [all_in]; now rewrite Hc|].
    destruct (is_underscore c'); [exact IH|].
    cbn [all_in]. now rewrite Hc, IH.
  - cbn [all_in]. now rewrite Hc, IH.
Qed.

(** Collapsing keeps a first character that is not an underscore. *)
Lemma collapse_head (c : ascii) (r : string) :
  is_underscore c = false ->
  collapse_underscores (String c r) = String c (collapse_underscores r).
Proof. intros H. cbn [collapse_underscores]. now rewrite H. Qed.

Lemma collapse_no_leading (s : string) :
  no_leading_underscore s = true ->
  no_leading_underscore (collapse_underscores s) = true.
Proof.
  destruct s as [|c r]; [reflexivity|]. cbn [no_leading_underscore].
  intros H. apply negb_true_iff in H. rewrite (collapse_head c r H).
  cbn [no_leading_underscore]. now rewrite H.
Qed.

Lemma single_after_other (c : ascii) (t : string) :
  is_underscore c = false ->
  single_underscores (String c t) = single_underscores t.
Proof.
  intros Hc. destruct t as [|x y]; [reflexivity|].
  cbn [single_underscores]. now rewrite Hc.
Qed.

Lemma single_before_other (c c' : ascii) (t : string) :
  is_underscore c' = false ->
  single_underscores (String c (String c' t)) = single_underscores (String c' t).
Proof.
  intros Hc'. cbn [single_underscores]. rewrite Hc', andb_false_r. reflexivity.
Qed.

Lemma collapse_single (s : string) :
  single_underscores (collapse_underscores s) = true.
Proof.
  induction s as [|c r IH]; [reflexivity|].
  cbn [collapse_underscores].
  destruct (is_underscore c) eqn:Hc.
  - destruct r as [|c' r']; [reflexivity|].
    destruct (is_underscore c') eqn:Hc'; [exact IH|].
    rewrite (collapse_head c' r' Hc') in IH |- *.
    now rewrite single_before_other.
  - now rewrite single_after_other.
Qed.

Lemma lstrip_no_leading (s : string) :
  no_leading_underscore (lstrip_underscore s) = true.
Proof.
  induction s as [|c r IH]; [reflexivity|].
  cbn [lstrip_underscore]. destruct (is_underscore c) eqn:Hc; [exact IH|].
  cbn [no_leading_underscore]. now rewrite Hc.
Qed.

Lemma snake_case_shaped (s : string) : snake_shaped (snake_case s) = true.
Proof.
  unfold snake_case, snake_shaped. rewrite sub_underscores_collapses.
  rewrite collapse_all_in
    by (apply lstrip_all_in, lower_all_lowered).
  rewrite collapse_single.
  now rewrite collapse_no_leading by apply lstrip_no_leading.
Qed.

Lemma table_values_shaped :
  forallb (fun kv => snake_shaped (snd kv)) TYPE_NAMES = true.
Proof. vm_compute. reflexivity. Qed.

Lemma table_keys_not_lowered :
  forallb (fun kv => negb (all_in is_lowered (fst kv))) TYPE_NAMES = true.
Proof. vm_compute. reflexivity. Qed.

(** *** Names that are already in shape *)

Lemma lowered_not_key (v : string) :
  all_in is_lowered v = true -> dict_get v TYPE_NAMES = None.
Proof.
  intros Hv. destruct (dict_get v TYPE_NAMES) as [n|] eqn:Hget; [|reflexivity].
  apply dict_get_some_in in Hget.
  pose proof table_keys_not_lowered as Hk. rewrite forallb_forall in Hk.
  specialize (Hk _ Hget). cbn [fst] in Hk. now rewrite Hv in Hk.
Qed.

Lemma lowered_no_known_prefix (v : string) :
  all_in is_lowered v = true -> strip_first_prefix KNOWN_PREFIXES v = v.
Proof.
  intros Hv. destruct v as [|c r]; [reflexivity|].
  cbn [all_in] in Hv. apply andb_true_iff in Hv as [Hc _].
  unfold KNOWN_PREFIXES, strip_first_prefix, startswith.
  cbn [String.prefix].
  destruct (ascii_dec "H" c) as [<-|_]; [discriminate Hc | reflexivity].
Qed.

Lemma lowered_no_insert (v : string) :
  all_in is_lowered v = true -> underscore_before_upper v = v.
Proof.
  induction v as [|c r IH]; [reflexivity|]. intros H.
  cbn [all_in] in H. apply andb_true_iff in H as [Hc Hr].
  cbn [underscore_before_upper]. rewrite (lowered_not_upper c Hc).
  now rewrite IH.
Qed.

Lemma lowered_lower (v : string) : all_in is_lowered v = true -> lower v = v.
Proof.
  induction v as [|c r IH]; [reflexivity|]. intros H.
  cbn [all_in] in H. apply andb_true_iff in H as [Hc Hr].
  cbn [lower]. rewrite IH by exact Hr.
  unfold is_lowered in Hc. apply Ascii.eqb_eq in Hc. now rewrite Hc.
Qed.

Lemma no_leading_lstrip (v : string) :
  no_leading_underscore v = true -> lstrip_underscore v = v.
Proof.
  destruct v as [|c r]; [reflexivity|]. cbn [no_leading_underscore].
  intros H. apply negb_true_iff in H. cbn [lstrip_underscore]. now rewrite H.
Qed.

Lemma single_collapse (v : string) :
  single_underscores v = true -> collapse_underscores v = v.
Proof.
  induction v as [|c r IH]; [reflexivity|]. intros H.
  cbn [collapse_underscores].
  destruct r as [|c' r'].
  - now destruct (is_underscore c).
  - cbn [single_underscores] in H. apply andb_true_iff in H as [Hcc Hr].
    specialize (IH Hr).
    destruct (is_underscore c) eqn:Hc.
    + cbn [andb] in Hcc. apply negb_true_iff in Hcc. rewrite Hcc.
      now rewrite IH.
    + now rewrite IH.
Qed.

Lemma shaped_fixed (v : string) :
  snake_shaped v = true -> friendly_name v = v.
Proof.
  unfold snake_shaped. intros H.
  apply andb_true_iff in H as [H Hlead]. apply andb_true_iff in H as [Hlow Hsingle].
  unfold friendly_name. rewrite (lowered_not_key v Hlow).
  unfold snake_case.
  rewrite sub_underscores_collapses, sub_upper_inserts.
  rewrite (lowered_no_known_prefix v Hlow), (lowered_no_insert v Hlow).
  rewrite (lowered_lower v Hlow), (no_leading_lstrip v Hlead).
  now apply single_collapse.
Qed.

(** X1. Whatever the identifier, its friendly name is unchanged by
    [str.lower] (it holds no letter A-Z), has no two underscores side by
    side and does not begin with an underscore. *)
Theorem friendly_name_shaped (hk_type : string) :
  snake_shaped (friendly_name hk_type) = true.
Proof.
  unfold friendly_name.
  destruct (dict_get hk_type TYPE_NAMES) as [name|] eqn:Hget.
  - apply dict_get_some_in in Hget.
    pose proof table_values_shaped as Hv. rewrite forallb_forall in Hv.
    exact (Hv _ Hget).
  - apply snake_case_shaped.
Qed.

(** X2. [friendly_name] is idempotent: the name of a name is that name. *)
Theorem friendly_name_idempotent (hk_type : string) :
  friendly_name (friendly_name hk_type) = friendly_name hk_type.
Proof.
  apply shaped_fixed. unfold friendly_name.
  destruct (dict_get hk_type TYPE_NAMES) as [name|] eqn:Hget.
  - apply dict_get_some_in in Hget.
    pose proof table_values_shaped as Hv. rewrite forallb_forall in Hv.
    exact (Hv _ Hget).
  - apply snake_case_shaped.
Qed.

(** *** The prefixes *)

Lemma strip_known_prefix_exact (p r : string) :
  In p KNOWN_PREFIXES -> strip_first_prefix KNOWN_PREFIXES (p ++ r) = r.
Proof.
  intros [<-|[<-|[<-|[]]]]; unfold KNOWN_PREFIXES, strip_first_prefix.
  - rewrite startswith_append. apply slice_from_length_append.
  - change (startswith ("HKCategoryTypeIdentifier" ++ r) "HKQuantityTypeIdentifier")
      with false.
    cbv iota. rewrite startswith_append. apply slice_from_length_append.
  - change (startswith ("HKDataType" ++ r) "HKQuantityTypeIdentifier") with false.
    change (startswith ("HKDataType" ++ r) "HKCategoryTypeIdentifier") with false.
    cbv iota. rewrite startswith_append. apply slice_from_length_append.
Qed.

(** X3. For an identifier made of a known prefix [p] and a rest [r] that is
    not a key of the table, exactly [p] is removed, also when [r] begins
    with a known prefix again: the name is the snake case of [r]. *)
Theorem friendly_name_strips_exactly (p r : string) :
  In p KNOWN_PREFIXES ->
  dict_get (p ++ r) TYPE_NAMES = None ->
  friendly_name (p ++ r)
  = trim_leading_underscore
      (collapse_underscores (lower (underscore_before_upper r))).
Proof.
  intros Hp Hget. unfold friendly_name. rewrite Hget.
  rewrite snake_case_generic. unfold generic_name, strip_known_prefix.
  now rewrite <- strip_first_prefix_find, strip_known_prefix_exact.
Qed.

Lemma friendly_name_strips_exactly_witness :
  friendly_name ("HKCategoryTypeIdentifier" ++ "HKDataTypeMindfulSession")
  = "h_k_data_type_mindful_session".
Proof.
  rewrite friendly_name_strips_exactly;
    [reflexivity | right; left; reflexivity | reflexivity].
Defined.

(** X4. [clean_workout_type] removes the prefix once: a string that begins
    with it loses exactly that prefix, whatever follows, and any other
    string is returned as it is. *)
Theorem clean_workout_type_strips_once :
  (forall r, clean_workout_type (WORKOUT_ACTIVITY_PREFIX ++ r) = r) /\
  (forall s, startswith s WORKOUT_ACTIVITY_PREFIX = false ->
             clean_workout_type s = s).
Proof.
  split.
  - intros r. unfold clean_workout_type.
    rewrite startswith_append. apply slice_from_length_append.
  - intros s H. unfold clean_workout_type. now rewrite H.
Qed.

Lemma clean_workout_type_strips_once_witness :
  clean_workout_type "Walking" = "Walking".
Proof. apply (proj2 clean_workout_type_strips_once). reflexivity. Defined.

(** *** Word boundaries *)

Lemma space_words_head (a : ascii) (r : string) :
  exists t, space_words (String a r) = String a t.
Proof.
  destruct r as [|b r]; [now exists ""|].
  rewrite space_words_pair. destruct (is_lower_az a && is_upper_AZ b); eauto.
Qed.

Lemma boundary_cons (a b : ascii) (t : string) :
  has_case_boundary (String a (String b t))
  = (is_lower_az a && is_upper_AZ b) || has_case_boundary (String b t).
Proof. reflexivity. Qed.

Lemma space_words_no_boundary_aux (r : string) :
  forall a, has_case_boundary (space_words (String a r)) = false.
Proof.
  induction r as [|b r IH]; intros a; [reflexivity|].
  specialize (IH b). rewrite space_words_pair.
  destruct (space_words_head b r) as [t Ht]. rewrite Ht in IH |- *.
  destruct (is_lower_az a && is_upper_AZ b) eqn:Hab.
  - rewrite !boundary_cons, IH.
    change (is_upper_AZ " ") with false. change (is_lower_az " ") with false.
    now rewrite andb_false_r.
  - now rewrite boundary_cons, Hab, IH.
Qed.

Lemma space_words_no_boundary (s : string) :
  has_case_boundary (space_words s) = false.
Proof. destruct s; [reflexivity | apply space_words_no_boundary_aux]. Qed.

Lemma no_boundary_fixed (s : string) :
  has_case_boundary s = false -> space_words s = s.
Proof.
  induction s as [|a r IH]; [reflexivity|]. intros H.
  destruct r as [|b r]; [reflexivity|].
  rewrite boundary_cons in H. apply orb_false_elim in H as [Hab Hr].
  rewrite space_words_pair, Hab. now rewrite IH.
Qed.

Lemma boundary_append (p x : string) :
  has_case_boundary p = true -> has_case_boundary (p ++ x) = true.
Proof.
  induction p as [|a p IH]; [discriminate|].
  destruct p as [|b p]; [discriminate|]. intros H.
  cbn [append]. rewrite boundary_cons in H |- *.
  destruct (is_lower_az a && is_upper_AZ b); [reflexivity|].
  cbn [orb] in H |- *. now apply IH.
Qed.

Lemma boundary_tail (c : ascii) (s : string) :
  has_case_boundary s = true -> has_case_boundary (String c s) = true.
Proof.
  destruct s as [|b s]; [discriminate|]. intros H.
  rewrite boundary_cons, H. apply orb_true_r.
Qed.

(** A text without a word boundary does not contain a string that has one. *)
Lemma no_boundary_absent (p s : string) :
  has_case_boundary p = true ->
  has_case_boundary s = false -> contains p s = false.
Proof.
  intros Hp. induction s as [|c r IH]; intros Hs.
  - cbn [contains]. unfold startswith.
    destruct p as [|a p]; [discriminate Hp | reflexivity].
  - cbn [contains]. apply orb_false_intro.
    + destruct (startswith (String c r) p) eqn:Hpre; [|reflexivity].
      unfold startswith in Hpre. apply prefix_correct in Hpre.
      pose proof (substring_slice_from (String.length p) (String c r)) as Hsplit.
      rewrite Hpre in Hsplit.
      pose proof (boundary_append p (slice_from (String.length p) (String c r)) Hp)
        as Hb.
      rewrite Hsplit in Hb. congruence.
    + apply IH. destruct (has_case_boundary r) eqn:Hr; [|reflexivity].
      apply (boundary_tail c) in Hr. congruence.
Qed.

Lemma spaced_idempotent (old s : string) :
  has_case_boundary old = true ->
  let clean := fun val =>
    re_sub match_lower_upper repl_space_between
           (if truthy val then replace_with_empty old val else "") in
  clean (clean s) = clean s.
Proof.
  intros Hold clean. subst clean. cbv beta.
  rewrite !sub_lower_upper_spaces.
  set (t := space_words (if truthy s then replace_with_empty old s else "")).
  assert (Ht : has_case_boundary t = false) by apply space_words_no_boundary.
  assert (Hin : (if truthy t then replace_with_empty old t else "") = t).
  { rewrite (replace_absent old t) by now apply no_boundary_absent.
    now destruct t. }
  rewrite Hin. now apply no_boundary_fixed.
Qed.

(** X5. [clean_blood_type] and [clean_skin_type] are idempotent, and their
    result holds no lowercase letter directly followed by an uppercase
    one. *)
Theorem spaced_normalizers_idempotent (val : string) :
  clean_blood_type (clean_blood_type val) = clean_blood_type val /\
  clean_skin_type (clean_skin_type val) = clean_skin_type val /\
  has_case_boundary (clean_blood_type val) = false /\
  has_case_boundary (clean_skin_type val) = false.
Proof.
  split; [|split; [|split]].
  - apply (spaced_idempotent "HKBloodType"). reflexivity.
  - apply (spaced_idempotent "HKFitzpatrickSkinType"). reflexivity.
  - unfold clean_blood_type. rewrite sub_lower_upper_spaces.
    apply space_words_no_boundary.
  - unfold clean_skin_type. rewrite sub_lower_upper_spaces.
    apply space_words_no_boundary.
Qed.

(** *** The length of a normalized date *)




End NormalizerShape.

(* ------------------------------------------------------------------ *)
(** ** Further properties of the classifier *)

Module ClassifierCoverage.
Import PyStr Normalizers Classifier Writer Spec Shape Inputs.
Import ClassifierFacts.
Local Open Scope list_scope.

(** *** The [records] dict *)

Lemma bucket_after_append (n m : string) (r : row) (d : list (string * list row)) :
  bucket (bucket_append n r d) m
  = if String.eqb n m then bucket d m ++ [r] else bucket d m.
Proof.
  unfold bucket. induction d as [|[k rs] d IH].
  - cbn [bucket_append dict_get]. now destruct (String.eqb n m).
  - cbn [bucket_append].
    destruct (String.eqb_spec k n) as [->|Hkn]; cbn [dict_get].
    + now destruct (String.eqb n m).
    + destruct (String.eqb_spec k m) as [->|Hkm].
      * destruct (String.eqb_spec n m) as [->|_]; [now elim Hkn | reflexivity].
      * exact IH.
Qed.

Lemma keys_after_append (n : string) (r : row) (d : list (string * list row)) :
  dict_keys (bucket_append n r d)
  = if existsb (String.eqb n) (dict_keys d)
    then dict_keys d else dict_keys d ++ [n].
Proof.
  unfold dict_keys. induction d as [|[k rs] d IH]; [reflexivity|].
  cbn [bucket_append map fst existsb].
  rewrite (String.eqb_sym n k).
  destruct (String.eqb k n); [reflexivity|].
  cbn [map fst orb]. rewrite IH.
  now destruct (existsb (String.eqb n) (map fst d)).
Qed.

Lemma keys_nodup_after_append (n : string) (r : row) (d : list (string * list row)) :
  NoDup (dict_keys d) -> NoDup (dict_keys (bucket_append n r d)).
Proof.
  intros H. rewrite keys_after_append.
  destruct (existsb (String.eqb n) (dict_keys d)) eqn:Hex; [exact H|].
  apply NoDup_app; [exact H | repeat constructor; intros [] |].
  intros x Hx [Hn|[]]. subst x.
  assert (existsb (String.eqb n) (dict_keys d) = true).
  { apply existsb_exists. exists n. split; [exact Hx | apply String.eqb_refl]. }
  congruence.
Qed.

(** X7. Appending a row to the bucket [n] puts it at the end of that bucket,
    creates the bucket when it is missing, and leaves every other bucket and
    the order of the keys as they were; no key is ever held twice. *)
Theorem bucket_append_lookup (n m : string) (r : row) (d : list (string * list row)) :
  bucket (bucket_append n r d) m
    = (if String.eqb n m then bucket d m ++ [r] else bucket d m) /\
  dict_keys (bucket_append n r d)
    = (if existsb (String.eqb n) (dict_keys d)
       then dict_keys d else dict_keys d ++ [n]) /\
  (NoDup (dict_keys d) -> NoDup (dict_keys (bucket_append n r d))).
Proof.
  split; [apply bucket_after_append|].
  split; [apply keys_after_append | apply keys_nodup_after_append].
Qed.

Lemma bucket_append_lookup_witness :
  NoDup (dict_keys (bucket_append "steps" (mkRow "" "1" "" "" "" "") [])).
Proof.
  apply (bucket_append_lookup "steps" "steps" (mkRow "" "1" "" "" "" "") []).
  constructor.
Defined.

(** *** Events the loop does not react to *)

Lemma step_irrelevant (st : state) (ev : event) :
  relevant ev = false -> step st ev = st.
Proof.
  destruct ev as [[|] elem]; unfold relevant, step; cbn [fst snd existsb].
  - intros ->. reflexivity.
  - intros H.
    repeat (apply orb_false_elim in H as [?H H]).
    now rewrite H0, H1, H2, H3, H4.
Qed.

Lemma run_from_relevant (evs : list event) :
  forall st, run_from st evs = run_from st (filter relevant evs).
Proof.
  induction evs as [|ev evs IH]; intros st; [reflexivity|].
  cbn [filter run_from fold_left].
  change (fold_left step evs (step st ev)) with (run_from (step st ev) evs).
  destruct (relevant ev) eqn:Hev.
  - cbn [run_from fold_left]. apply IH.
  - rewrite (step_irrelevant st ev Hev). apply IH.
Qed.

(** X8. The result depends on the relevant events only: dropping every
    "start" event other than that of a [Correlation], and every "end" event
    of a tag the loop does not test, changes neither the state after the
    loop nor the files. *)
Theorem irrelevant_events_ignored (evs : list event) :
  run evs = run (filter relevant evs) /\
  convert evs = convert (filter relevant evs).
Proof.
  assert (H : run evs = run (filter relevant evs)) by apply run_from_relevant.
  split; [exact H|]. unfold convert. now rewrite H.
Qed.

(** *** Records outside correlations *)




(** *** Records inside a correlation *)

Lemma ended_cons (t : string) (ev : event) (evs : list event) :
  ended t (ev :: evs)
  = if is_end_of t ev then snd ev :: ended t evs else ended t evs.
Proof. unfold ended. cbn [filter]. now destruct (is_end_of t ev). Qed.

Lemma run_from_inside (mid : list event) :
  forall st corr,
    correlation_free mid = true ->
    in_correlation st = true ->
    current_correlation st = Some corr ->
    in_correlation (run_from st mid) = true /\
    current_correlation (run_from st mid)
    = Some (mkCorrelation (corr_type corr) (sourceName corr) (creationDate corr)
                          (startDate corr) (endDate corr)
                          (corr_records corr
                           ++ map child_of (ended "Record" mid))) /\
    correlations (run_from st mid) = correlations st.
Proof.
  induction mid as [|[kind elem] mid IH]; intros st corr Hfree Hflag Hcur.
  - cbn. rewrite app_nil_r. now destruct corr.
  - cbn [correlation_free forallb] in Hfree.
    apply andb_true_iff in Hfree as [Hev Hfree].
    unfold is_correlation_event in Hev. cbn [snd] in Hev.
    apply negb_true_iff in Hev.
    cbn [run_from fold_left].
    change (fold_left step mid ?s) with (run_from s mid).
    rewrite ended_cons. unfold is_end_of. cbn [fst snd].
    destruct kind.
    + unfold step. rewrite Hev. now apply IH.
    + destruct (String.eqb (tag elem) "Record") eqn:HRecord.
      * assert (Hstep : step st (EvEnd, elem)
                        = set_current_correlation
                            st (Some (add_child corr (child_of elem)))).
        { unfold step. tag_known HRecord. cbn [String.eqb Ascii.eqb Bool.eqb].
          unfold end_record. now rewrite Hflag, Hcur. }
        rewrite Hstep.
        destruct (IH (set_current_correlation
                        st (Some (add_child corr (child_of elem))))
                     (add_child corr (child_of elem)) Hfree Hflag eq_refl)
          as (H1 & H2 & H3).
        split; [exact H1|]. split; [|exact H3].
        rewrite H2. cbn [add_child corr_type sourceName creationDate startDate
                         endDate corr_records map].
        now rewrite <- app_assoc.
      * assert (Hkeep : in_correlation (step st (EvEnd, elem)) = true /\
                        current_correlation (step st (EvEnd, elem)) = Some corr /\
                        correlations (step st (EvEnd, elem)) = correlations st).
        { unfold step. rewrite HRecord, Hev.
          destruct (String.eqb (tag elem) "Me");
            [now repeat split|].
          destruct (String.eqb (tag elem) "Workout");
            [now repeat split|].
          destruct (String.eqb (tag elem) "ActivitySummary"); now repeat split. }
        destruct Hkeep as (K1 & K2 & K3).
        destruct (IH _ corr Hfree K1 K2) as (H1 & H2 & H3).
        split; [exact H1|]. split; [exact H2 | now rewrite H3].
Qed.

(** X10. A [Correlation] element that holds no other [Correlation] is
    finalized, at its close, as one correlation: its attributes are those
    read at its start, its children are the [Record] elements closed in
    between, in document order and whatever their type.  What came before
    does not matter: a correlation still held at the start is dropped. *)
Theorem correlation_collects_children
        (pre mid : list event) (c c_end : element) :
  tag c = "Correlation" -> tag c_end = "Correlation" ->
  correlation_free mid = true ->
  let st := run (pre ++ (EvStart, c) :: mid ++ [(EvEnd, c_end)]) in
  correlations st
  = correlations (run pre)
    ++ [mkCorrelation (elem_get c "type") (elem_get c "sourceName")
                      (elem_get c "creationDate") (elem_get c "startDate")
                      (elem_get c "endDate")
                      (map child_of (ended "Record" mid))] /\
  current_correlation st = None /\ in_correlation st = false.
Proof.
  intros Hc Hend Hfree st. subst st.
  rewrite run_app. cbn [run_from fold_left].
  change (fold_left step ?l ?s) with (run_from s l).
  rewrite run_from_app.
  set (opened := step (run pre) (EvStart, c)).
  assert (Hopen : in_correlation opened = true /\
                  current_correlation opened = Some (new_correlation c) /\
                  correlations opened = correlations (run pre)).
  { subst opened. unfold step. rewrite Hc. now repeat split. }
  destruct Hopen as (O1 & O2 & O3).
  destruct (run_from_inside mid opened (new_correlation c) Hfree O1 O2)
    as (H1 & H2 & H3).
  cbn [run_from fold_left].
  set (inner := run_from opened mid) in *.
  assert (Hclose :
            correlations (step inner (EvEnd, c_end))
            = correlations inner
              ++ [mkCorrelation (elem_get c "type") (elem_get c "sourceName")
                                (elem_get c "creationDate") (elem_get c "startDate")
                                (elem_get c "endDate")
                                (map child_of (ended "Record" mid))] /\
            current_correlation (step inner (EvEnd, c_end)) = None /\
            in_correlation (step inner (EvEnd, c_end)) = false).
  { unfold step. rewrite Hend. cbn [String.eqb Ascii.eqb Bool.eqb].
    unfold end_correlation. rewrite H2. now repeat split. }
  destruct Hclose as (C1 & C2 & C3).
  rewrite C1, H3, O3. now repeat split.
Qed.

Lemma correlation_collects_children_witness :
  correlations (run reading) = [reading_correlation].
Proof.
  apply (correlation_collects_children
           [] [(EvStart, record_elem bp_systolic_type "120" "mmHg");
               (EvEnd, record_elem bp_systolic_type "120" "mmHg");
               (EvStart, record_elem bp_diastolic_type "80" "mmHg");
               (EvEnd, record_elem bp_diastolic_type "80" "mmHg")]
           correlation_elem correlation_elem); reflexivity.
Defined.

(** *** Workouts and daily summaries *)



End ClassifierCoverage.

(* ------------------------------------------------------------------ *)
(** ** Further properties of the writer *)

Module WriterCoverage.
Import PyStr Normalizers Classifier Writer Spec Shape Inputs.
Import PyStrFacts ClassifierFacts WriterFacts ClassifierCoverage.
Local Open Scope list_scope.

(** *** Children that give nothing to a row *)

Lemma bp_row_of_children (corr : correlation) :
  make_bp_row corr
  = mkBpRow (fst (fst (fold_left scan_child (corr_records corr) ("", "", ""))))
            (snd (fst (fold_left scan_child (corr_records corr) ("", "", ""))))
            (snd (fold_left scan_child (corr_records corr) ("", "", "")))
            (sourceName corr)
            (clean_date (startDate corr)) (clean_date (endDate corr)).
Proof.
  unfold make_bp_row.
  now destruct (fold_left scan_child (corr_records corr) ("", "", ""))
    as [[sy di] u].
Qed.

Lemma add_child_same_row (c1 c2 : correlation) (x : child) :
  make_bp_row c1 = make_bp_row c2 ->
  make_bp_row (add_child c1 x) = make_bp_row (add_child c2 x).
Proof.
  rewrite !bp_row_of_children.
  cbn [add_child corr_records sourceName startDate endDate].
  rewrite !fold_left_app. cbn [fold_left].
  destruct (fold_left scan_child (corr_records c1) ("", "", "")) as [[s1 d1] u1].
  destruct (fold_left scan_child (corr_records c2) ("", "", "")) as [[s2 d2] u2].
  cbn [fst snd]. intros [= -> -> -> -> -> ->]. reflexivity.
Qed.

Lemma add_unrelated_child (corr : correlation) (x : child) :
  is_systolic x = false -> is_diastolic x = false ->
  make_bp_row (add_child corr x) = make_bp_row corr.
Proof.
  intros Hs Hd. rewrite !bp_row_of_children.
  cbn [add_child corr_records sourceName startDate endDate].
  rewrite fold_left_app. cbn [fold_left].
  destruct (fold_left scan_child (corr_records corr) ("", "", "")) as [[s d] u].
  unfold scan_child. unfold is_systolic in Hs. unfold is_diastolic in Hd.
  now rewrite Hs, Hd.
Qed.

Lemma same_output_refl (st : state) : same_output st st.
Proof.
  unfold same_output. repeat split.
  now destruct (current_correlation st).
Qed.

Ltac state_fields :=
  cbn [records workouts activity_summaries correlations profile in_correlation
       current_correlation set_records set_workouts set_activity_summaries
       set_correlations set_profile set_in_correlation set_current_correlation
       same_rows].

Ltac output_fields :=
  unfold same_output; state_fields; repeat split;
  try assumption; try congruence;
  repeat match goal with
         | H : current_correlation _ = _ |- _ => rewrite H
         end;
  cbn [same_rows]; try assumption; try exact I.

Lemma step_same_output (st1 st2 : state) (ev : event) :
  same_output st1 st2 -> same_output (step st1 ev) (step st2 ev).
Proof.
  intros (Hr & Hw & Ha & Hc & Hp & Hf & Hcur).
  destruct ev as [[|] elem]; unfold step.
  - destruct (String.eqb (tag elem) "Correlation"); output_fields.
  - tag_cases elem.
    + output_fields.
    + unfold end_record. rewrite <- Hf.
      destruct (current_correlation st1) as [c1|] eqn:Hc1,
               (current_correlation st2) as [c2|] eqn:Hc2;
        cbn [same_rows] in Hcur; try contradiction.
      * destruct (in_correlation st1) eqn:Hflag.
        -- output_fields. now apply add_child_same_row.
        -- destruct (negb (set_mem (elem_get elem "type") BP_TYPES));
             output_fields.
      * destruct (in_correlation st1) eqn:Hflag;
          destruct (negb (set_mem (elem_get elem "type") BP_TYPES));
          output_fields.
    + unfold end_correlation.
      destruct (current_correlation st1) as [c1|] eqn:Hc1,
               (current_correlation st2) as [c2|] eqn:Hc2;
        cbn [same_rows] in Hcur; try contradiction; output_fields.
      rewrite !map_app. cbn [map]. now rewrite Hc, Hcur.
    + output_fields.
    + output_fields.
    + unfold same_output. now repeat split.
Qed.

Lemma run_from_same_output (evs : list event) :
  forall st1 st2, same_output st1 st2 ->
                  same_output (run_from st1 evs) (run_from st2 evs).
Proof.
  induction evs as [|ev evs IH]; intros st1 st2 H; [exact H|].
  cbn [run_from fold_left]. apply IH. now apply step_same_output.
Qed.

Lemma same_output_files (st1 st2 : state) :
  same_output st1 st2 -> write_files st1 = write_files st2.
Proof.
  intros (Hr & Hw & Ha & Hc & Hp & _ & _).
  unfold write_files, record_files, blood_pressure_files, bp_rows,
    workout_files, summary_files, profile_files.
  rewrite Hr, Hw, Ha, Hp, Hc.
  destruct (correlations st1), (correlations st2);
    solve [reflexivity | discriminate Hc].
Qed.

(** X12. A [Record] element that closes while a correlation is held, and
    whose type contains neither "Systolic" nor "Diastolic", leaves no trace:
    the files are those written without that element. *)
Theorem unrelated_child_leaves_no_trace
        (pre post : list event) (elem : element) (corr : correlation) :
  tag elem = "Record" ->
  current_correlation (run pre) = Some corr ->
  contains "Systolic" (elem_get elem "type") = false ->
  contains "Diastolic" (elem_get elem "type") = false ->
  convert (pre ++ (EvEnd, elem) :: post) = convert (pre ++ post).
Proof.
  intros Htag Hcur Hs Hd. unfold convert. rewrite !run_app.
  cbn [run_from fold_left].
  change (fold_left step post ?s) with (run_from s post).
  apply same_output_files, run_from_same_output.
  unfold step. rewrite Htag. cbn [String.eqb Ascii.eqb Bool.eqb].
  unfold end_record. rewrite (run_open_flag pre corr Hcur), Hcur.
  unfold same_output. cbn. rewrite Hcur. cbn [same_rows].
  repeat split; try apply (run_open_flag pre corr Hcur).
  now apply add_unrelated_child.
Qed.

Lemma unrelated_child_leaves_no_trace_witness :
  convert ([(EvStart, correlation_elem)]
           ++ (EvEnd, record_elem "HKQuantityTypeIdentifierHeartRate" "70" "bpm")
           :: [(EvEnd, correlation_elem)])
  = convert ([(EvStart, correlation_elem)] ++ [(EvEnd, correlation_elem)]).
Proof.
  apply (unrelated_child_leaves_no_trace
           [(EvStart, correlation_elem)] [(EvEnd, correlation_elem)]
           (record_elem "HKQuantityTypeIdentifierHeartRate" "70" "bpm")
           (new_correlation correlation_elem)); reflexivity.
Defined.

(** *** The last matching child *)

Lemma last_such_after {A : Type} (f : A -> bool) (l1 l2 : list A) (x : A) :
  f x = true -> (forall y, In y l2 -> f y = false) ->
  last_such f (l1 ++ x :: l2) = Some x.
Proof.
  intros Hx Hl2.
  assert (Hnone : last_such f l2 = None).
  { induction l2 as [|y l2 IH]; [reflexivity|].
    cbn [last_such]. rewrite IH by (intros z Hz; apply Hl2; now right).
    now rewrite (Hl2 y (or_introl eq_refl)). }
  induction l1 as [|y l1 IH]; cbn [app last_such].
  - now rewrite Hnone, Hx.
  - now rewrite IH.
Qed.

(** X13. When several children of a correlation match a component, the
    last one in document order gives the value: the systolic value and the
    unit come from the last child whose type contains "Systolic", the
    diastolic value from the last child whose type contains "Diastolic" and
    not "Systolic". *)
Theorem last_child_wins (corr : correlation) (l1 l2 : list child) (c : child) :
  corr_records corr = l1 ++ c :: l2 ->
  (is_systolic c = true ->
   (forall x, In x l2 -> is_systolic x = false) ->
   bp_systolic (make_bp_row corr) = value (rec_row c) /\
   bp_unit (make_bp_row corr) = unit (rec_row c)) /\
  (is_diastolic_only c = true ->
   (forall x, In x l2 -> is_diastolic_only x = false) ->
   bp_diastolic (make_bp_row corr) = value (rec_row c)).
Proof.
  intros Hrec. rewrite make_bp_row_fields, Hrec.
  cbn [bp_systolic bp_unit bp_diastolic]. split.
  - intros Hc Hl2. now rewrite (last_such_after is_systolic l1 l2 c Hc Hl2).
  - intros Hc Hl2.
    now rewrite (last_such_after is_diastolic_only l1 l2 c Hc Hl2).
Qed.

Lemma last_child_wins_witness :
  bp_systolic (make_bp_row reading_correlation) = "120" /\
  bp_diastolic (make_bp_row reading_correlation) = "80".
Proof.
  split.
  - apply (last_child_wins reading_correlation []
             [mkChild bp_diastolic_type
                      (make_row (record_elem bp_diastolic_type "80" "mmHg"))]
             (mkChild bp_systolic_type
                      (make_row (record_elem bp_systolic_type "120" "mmHg"))));
      try reflexivity.
    intros x [<-|[]]. reflexivity.
  - apply (last_child_wins reading_correlation
             [mkChild bp_systolic_type
                      (make_row (record_elem bp_systolic_type "120" "mmHg"))]
             []
             (mkChild bp_diastolic_type
                      (make_row (record_elem bp_diastolic_type "80" "mmHg"))));
      try reflexivity.
    intros x [].
Defined.

(** *** The order and the paths of the files *)



















Example sample_day_paths :
  map path (convert sample_day)
  = ["heart_rate.csv"; "blood_pressure.csv"; "workouts.csv";
     "activity_summary.csv"; "profile.csv"].
Proof. vm_compute. reflexivity. Qed.

End WriterCoverage.
